(** * XS Mien Bac Intelligence: the dashboard front end and the backtest contract

    A shallow embedding of the TypeScript sources (components, hooks, API
    client and the Backtest Pro page) together with a model of the backtest
    engine contract, followed by the properties proved about them. *)

From Stdlib Require Import List String Ascii Bool Arith ZArith QArith Qround Qminmax Qabs FinFun
  Permutation DecimalString Lia Lqa.
Import ListNotations.

Local Open Scope string_scope.

(* ================================================================== *)
(** * JavaScript values used by the sources *)
(* ================================================================== *)

Module Js.

(** A JavaScript [number]: the finite values are read as rationals (every
    double is one), the three special values are kept apart. *)
Inductive number : Type :=
| NaN
| PosInf
| NegInf
| Fin (q : Q).

(** [x === 0] on rationals. *)
Definition is_zero (q : Q) : bool := Qeq_bool q 0.

(** ToBoolean on a number: [NaN], [0] and [-0] are falsy. *)
Definition truthy (n : number) : bool :=
  match n with
  | NaN => false
  | Fin q => negb (is_zero q)
  | PosInf | NegInf => true
  end.

(** [a || b] on numbers. *)
Definition or_else (a b : number) : number := if truthy a then a else b.

(** [Math.max(a, b)]. *)
Definition Math_max (a b : number) : number :=
  match a, b with
  | NaN, _ | _, NaN => NaN
  | PosInf, _ | _, PosInf => PosInf
  | NegInf, x | x, NegInf => x
  | Fin p, Fin q => if Qle_bool p q then Fin q else Fin p
  end.

(** [Math.min(a, b)]. *)
Definition Math_min (a b : number) : number :=
  match a, b with
  | NaN, _ | _, NaN => NaN
  | NegInf, _ | _, NegInf => NegInf
  | PosInf, x | x, PosInf => x
  | Fin p, Fin q => if Qle_bool p q then Fin p else Fin q
  end.

(** [a > b] on finite numbers. *)
Definition gt (a b : Q) : bool := negb (Qle_bool a b).

(** [Math.round(x)] on a finite number: nearest integer, ties upwards. *)
Definition Math_round (x : Q) : Z := Qfloor (x + (1 # 2)).

(** [Math.max(...xs)] over finite numbers, for a list known to be non-empty
    (head [x], tail [xs]). *)
Definition Math_max_of (x : Q) (xs : list Q) : Q :=
  fold_left (fun acc y => if Qle_bool acc y then y else acc) xs x.

(** Division instrumented for the divisor: [None] marks a division whose
    divisor is zero (where JavaScript would produce an infinity or NaN). *)
Definition checked_div (a b : Q) : option Q :=
  if is_zero b then None else Some (a / b).

(** [Array.prototype.map] with the index passed to the callback. *)
Fixpoint mapi_from {A B : Type} (i : nat) (f : A -> nat -> B) (l : list A) : list B :=
  match l with
  | [] => []
  | x :: xs => f x i :: mapi_from (S i) f xs
  end.

Definition mapi {A B : Type} (f : A -> nat -> B) (l : list A) : list B :=
  mapi_from 0 f l.

(** ToIntegerOrInfinity, as [Array.prototype.slice] applies it to an index. *)
Inductive int_or_inf : Type :=
| IPosInf
| INegInf
| IInt (z : Z).

Definition ToIntegerOrInfinity (n : number) : int_or_inf :=
  match n with
  | NaN => IInt 0
  | PosInf => IPosInf
  | NegInf => INegInf
  | Fin q => IInt (Qnum q ÷ Zpos (Qden q))
  end.

(** The clamping of a relative index of [slice] against the length. *)
Definition relative_index (len : nat) (i : int_or_inf) : nat :=
  match i with
  | INegInf => 0
  | IPosInf => len
  | IInt z =>
      if (z <? 0)%Z then Z.to_nat (Z.max (Z.of_nat len + z) 0)
      else Nat.min (Z.to_nat z) len
  end.

(** [n <= k] for a count [n] and a number [k]. *)
Definition count_le (n : nat) (k : number) : Prop :=
  match k with
  | Fin q => inject_Z (Z.of_nat n) <= q
  | PosInf => True
  | NegInf | NaN => False
  end.

(** A number that is zero or more, [Infinity] included. *)
Definition nonnegative (k : number) : Prop :=
  match k with
  | Fin q => 0 <= q
  | PosInf => True
  | NegInf | NaN => False
  end.

(** [arr.slice(start, end)]. *)
Definition slice {A : Type} (start end_ : number) (arr : list A) : list A :=
  let len := List.length arr in
  let k := relative_index len (ToIntegerOrInfinity start) in
  let final := relative_index len (ToIntegerOrInfinity end_) in
  firstn (final - k) (skipn k arr).

(** Untyped values, for the objects that are built with spread syntax and
    sent as JSON. *)
#[local] Unset Elimination Schemes.
Inductive value : Type :=
| VUndefined
| VNull
| VBool (b : bool)
| VNum (n : number)
| VStr (s : string)
| VArr (items : list value)
| VObj (props : list (string * value)).
#[local] Set Elimination Schemes.

(** Own properties of an object, in insertion order. *)
Definition object : Type := list (string * value).

Fixpoint lookup (k : string) (o : object) : option value :=
  match o with
  | [] => None
  | (k', v) :: rest => if String.eqb k k' then Some v else lookup k rest
  end.

(** [o.k] on an object: a missing property reads as [undefined]. *)
Definition get (o : object) (k : string) : value :=
  match lookup k o with
  | Some v => v
  | None => VUndefined
  end.

(** Defining property [k] in an object literal: an existing key keeps its
    place and takes the new value, a new key goes last. *)
Fixpoint set (k : string) (v : value) (o : object) : object :=
  match o with
  | [] => [(k, v)]
  | (k', v') :: rest =>
      if String.eqb k k' then (k, v) :: rest else (k', v') :: set k v rest
  end.

Definition keys (o : object) : list string := map fst o.

(** [a ?? b]. *)
Definition nullish (a b : value) : value :=
  match a with
  | VUndefined | VNull => b
  | _ => a
  end.

Definition is_undefined (v : value) : bool :=
  match v with
  | VUndefined => true
  | _ => false
  end.

(** The properties [JSON.stringify] writes for an object: those whose value
    is not [undefined]. *)
Definition json_props (o : object) : object :=
  filter (fun kv => negb (is_undefined (snd kv))) o.

(** [arr.slice(start)]: the end defaults to the length. *)
Definition slice_from {A : Type} (start : number) (arr : list A) : list A :=
  skipn (relative_index (List.length arr) (ToIntegerOrInfinity start)) arr.

(** [Number.isNaN]. *)
Definition isNaN (n : number) : bool :=
  match n with
  | NaN => true
  | _ => false
  end.

End Js.

(* ================================================================== *)
(** * types.ts *)
(* ================================================================== *)

(** The interface declarations of the run response, kept as data: the
    property names, which of them are optional, and their types. *)
Module Interfaces.
Import Js.

Inductive ts_type : Type :=
| TNumber
| TString
| TBoolean
| TNull
| TArray (elem : ts_type)
| TRef (name : string)
| TUnion (a b : ts_type).

Record field : Type := { fname : string; optional : bool; ftype : ts_type }.

Definition req (n : string) (t : ts_type) : field :=
  {| fname := n; optional := false; ftype := t |}.

Definition opt (n : string) (t : ts_type) : field :=
  {| fname := n; optional := true; ftype := t |}.

Definition LottoBacktestSummary : list field :=
  [ req "final_balance" TNumber;
    req "total_bets" TNumber;
    req "total_wins" TNumber;
    req "total_losses" TNumber;
    req "win_rate" TNumber;
    req "max_drawdown" TNumber;
    opt "best_month" (TUnion TString TNull);
    opt "best_month_pnl" (TUnion TNumber TNull);
    opt "sharpe_like" (TUnion TNumber TNull);
    req "accuracy" TNumber;
    req "stop_reason" TString ].

Definition LottoTimelineEntry : list field :=
  [ req "date" TString;
    req "capital_start" TNumber;
    req "capital_end" TNumber;
    req "stake_total" TNumber;
    req "pnl" TNumber;
    req "bets" (TArray (TRef "LottoTimelineBet"));
    req "predictions" (TArray (TRef "LottoTimelinePrediction"));
    req "hits" (TArray TString);
    req "drawdown" TNumber;
    req "daily_return" TNumber;
    req "capital_halted" TBoolean ].

Definition field_names (iface : list field) : list string := map fname iface.




End Interfaces.

(** The values of those interfaces, as the components read them. *)
Module TailFrequency.
Record t : Type := { tail : string; count : Q }.
End TailFrequency.

Module NumberFrequency.
Record t : Type := { number : string; count : Q }.
End NumberFrequency.

Module PredictionResult.
Record t : Type := {
  number : string;
  probability : Q;
  rank : Z;
  supporting_metrics : option Js.object;
  explanation : option string }.
End PredictionResult.

Module PredictionScore.
(** [probability] is read with [?? 0]: [None] is a missing or null one. *)
Record t : Type := { number : string; probability : option Q }.
End PredictionScore.

Module PredictionResponse.
(** An absent array is read as the empty one: the three tests of
    [createDisplayResults] treat both alike. *)
Record t : Type := {
  algorithm : string;
  label : string;
  timestamp : string;
  metadata : Js.object;
  recommended_heads : list string;
  results : list PredictionResult.t;
  scores : list PredictionScore.t;
  notes : option string;
  related : option Js.object }.
End PredictionResponse.

Module LottoBacktestSummary.
Record t : Type := {
  final_balance : Q;
  total_bets : Q;
  total_wins : Q;
  total_losses : Q;
  win_rate : Q;
  max_drawdown : Q;
  best_month : option string;
  best_month_pnl : option Q;
  sharpe_like : option Q;
  accuracy : Q;
  stop_reason : string }.
End LottoBacktestSummary.

Module LottoTimelineBet.
Record t : Type := {
  number : string;
  stake : Q;
  hit : bool;
  payout : Q;
  rank : option Q;
  probability : option Q }.
End LottoTimelineBet.

Module LottoTimelinePrediction.
Record t : Type := { rank : Q; number : string; probability : option Q }.
End LottoTimelinePrediction.

Module LottoTimelineEntry.
Record t : Type := {
  date : string;
  capital_start : Q;
  capital_end : Q;
  stake_total : Q;
  pnl : Q;
  bets : list LottoTimelineBet.t;
  predictions : list LottoTimelinePrediction.t;
  hits : list string;
  drawdown : Q;
  daily_return : Q;
  capital_halted : bool }.
End LottoTimelineEntry.

Module LottoChartPoint.
Record t : Type := { date : string; value : Q }.
End LottoChartPoint.

Module LottoBacktestCharts.
Record t : Type := {
  capital_curve : list LottoChartPoint.t;
  accuracy_curve : list LottoChartPoint.t;
  profit_curve : list LottoChartPoint.t }.
End LottoBacktestCharts.

Module LottoBacktestResponse.
Record t : Type := {
  config : Js.object;
  summary : LottoBacktestSummary.t;
  timeline : list LottoTimelineEntry.t;
  charts : LottoBacktestCharts.t;
  logs : Js.object }.
End LottoBacktestResponse.

(* ================================================================== *)
(** * components/TailHeatmap.tsx *)
(* ================================================================== *)

Module TailHeatmap.
Import Js.

Definition getIntensity (value max : Q) : option Q :=
  if is_zero max then Some 0%Q else checked_div value max.

(** What the component renders: the placeholder for an empty list, or one
    cell per item with its intensity. *)
Inductive view : Type :=
| Placeholder
| Cells (intensities : list (string * option Q)).

Definition TailHeatmap (data : list TailFrequency.t) : view :=
  match data with
  | [] => Placeholder
  | first :: rest =>
      let max :=
        Math_max_of (TailFrequency.count first) (map TailFrequency.count rest) in
      Cells (map (fun item =>
                    (TailFrequency.tail item,
                     getIntensity (TailFrequency.count item) max)) data)
  end.

End TailHeatmap.

(* ================================================================== *)
(** * components/NumberFrequencyList.tsx *)
(* ================================================================== *)

Module NumberFrequencyList.
Import Js.

(** The width of the bar of an item, in percent. Quotient and product are
    taken exactly; the doubles of the code can fall just short of a half
    that the exact value reaches (29 of 200: 14.499... for 14.5), and the
    rounded width is then one less than here. *)
Definition percent (count max : Q) : option Z :=
  if gt max 0
  then option_map (fun ratio => Math_round (ratio * 100)) (checked_div count max)
  else Some 0%Z.

Inductive view : Type :=
| Placeholder
| Rows (rows : list (nat * string * option Z * Q)).

Definition NumberFrequencyList (data : list NumberFrequency.t) : view :=
  match data with
  | [] => Placeholder
  | first :: rest =>
      let max :=
        Math_max_of (NumberFrequency.count first) (map NumberFrequency.count rest) in
      Rows (mapi (fun item index =>
                    ((index + 1)%nat, NumberFrequency.number item,
                     percent (NumberFrequency.count item) max,
                     NumberFrequency.count item)) data)
  end.

End NumberFrequencyList.

(* ================================================================== *)
(** * components/PredictionPanel.tsx *)
(* ================================================================== *)

Module PredictionPanel.
Import Js.

(** [data.recommended_heads.length ? 1 / data.recommended_heads.length : 0] *)
Definition uniform_probability (recommended_heads : list string) : option Q :=
  let len := List.length recommended_heads in
  if (len =? 0)%nat then Some 0%Q else checked_div 1 (inject_Z (Z.of_nat len)).

(** [createDisplayResults]; [None] can only come from a division by zero. *)
Definition createDisplayResults (data : option PredictionResponse.t)
  (fallbackNotes : string) : option (list PredictionResult.t) :=
  match data with
  | None => Some []
  | Some data =>
      let explanation :=
        match PredictionResponse.notes data with
        | Some notes => notes
        | None => fallbackNotes
        end in
      if (0 <? List.length (PredictionResponse.results data))%nat then
        Some (map (fun item =>
                     {| PredictionResult.number := PredictionResult.number item;
                        PredictionResult.probability := PredictionResult.probability item;
                        PredictionResult.rank := PredictionResult.rank item;
                        PredictionResult.supporting_metrics :=
                          PredictionResult.supporting_metrics item;
                        PredictionResult.explanation := PredictionResult.explanation item |})
                  (PredictionResponse.results data))
      else if (0 <? List.length (PredictionResponse.scores data))%nat then
        Some (mapi (fun score index =>
                      {| PredictionResult.number := PredictionScore.number score;
                         PredictionResult.probability :=
                           match PredictionScore.probability score with
                           | Some p => p
                           | None => 0%Q
                           end;
                         PredictionResult.rank := (Z.of_nat index + 1)%Z;
                         PredictionResult.supporting_metrics := None;
                         PredictionResult.explanation := Some explanation |})
                   (PredictionResponse.scores data))
      else if (List.length (PredictionResponse.recommended_heads data) =? 0)%nat then
        Some []
      else
        match uniform_probability (PredictionResponse.recommended_heads data) with
        | None => None
        | Some uniform =>
            Some (mapi (fun number index =>
                          {| PredictionResult.number := number;
                             PredictionResult.probability := uniform;
                             PredictionResult.rank := (Z.of_nat index + 1)%Z;
                             PredictionResult.supporting_metrics := None;
                             PredictionResult.explanation := Some explanation |})
                       (PredictionResponse.recommended_heads data))
        end
  end.

(** The list the numbered rows are built from: the scores, or else the
    recommended heads. *)
Definition ranked_source (data : PredictionResponse.t) : list string :=
  match PredictionResponse.scores data with
  | [] => PredictionResponse.recommended_heads data
  | scores => map PredictionScore.number scores
  end.

(** The prediction grid: the placeholder when there is no result, else one
    row per element of [results.slice(0, topK)]. *)
Inductive grid : Type :=
| Empty
| Rows (rows : list PredictionResult.t).

Definition prediction_grid (results : list PredictionResult.t) (topK : number) : grid :=
  match results with
  | [] => Empty
  | _ => Rows (slice (Fin 0) topK results)
  end.

Definition rendered_rows (g : grid) : list PredictionResult.t :=
  match g with
  | Empty => []
  | Rows rows => rows
  end.

(** The rows [PredictionPanel] shows for [data] and [topK]; [blurb] is the
    descriptor text passed as fallback note. *)
Definition PredictionPanel_rows (data : option PredictionResponse.t) (blurb : string)
  (topK : number) : option (list PredictionResult.t) :=
  option_map (fun results => rendered_rows (prediction_grid results topK))
             (createDisplayResults data blurb).

(** The width of the probability bar of a row, in percent:
    [Math.min(Math.max(result.probability * 100, 6), 100)]. *)
Definition bar_width (probability : Q) : number :=
  Math_min (Math_max (Fin (probability * 100)) (Fin 6)) (Fin 100).

(** [handleBacktestWindowChange], as a function of the current window and
    of [Number(event.target.value)]; the result is the argument passed to
    [onBacktestWindowChange]. *)
Definition handleBacktestWindowChange (backtestWindow entered : number) : number :=
  let value := or_else entered backtestWindow in
  let clamped := Math_min (Math_max value (Fin 5)) (Fin 200) in
  clamped.

(** [previewTimeline]: [backtestTimeline.slice(-5).reverse()]. *)
Definition previewTimeline {A : Type} (backtestTimeline : list A) : list A :=
  rev (slice_from (Fin (-5)) backtestTimeline).

End PredictionPanel.

(* ================================================================== *)
(** * hooks/useAsync.ts *)
(* ================================================================== *)

Module UseAsync.

Section Hook.

(** [T] is the type of the data, [E] the type of what a rejection carries. *)
Variables T E : Type.

Record AsyncState : Type := {
  data : option T;
  error : option E;
  loading : bool }.

(** [initialData] and [immediate], [None] when the caller leaves them out
    (or passes null for [initialData]). *)
Record UseAsyncOptions : Type := {
  initialData : option T;
  immediate : option bool }.

Definition initial_state (options : UseAsyncOptions) : AsyncState :=
  {| data := initialData options;
     error := None;
     loading := match immediate options with Some b => b | None => true end |}.

(** The three calls of [setState] inside [execute]. A rejection with a null
    or undefined reason is [Rejected None]. *)
Inductive event : Type :=
| Started
| Resolved (result : T)
| Rejected (reason : option E).

Definition setState (ev : event) (prev : AsyncState) : AsyncState :=
  match ev with
  | Started => {| data := data prev; error := None; loading := true |}
  | Resolved result => {| data := Some result; error := None; loading := false |}
  | Rejected reason => {| data := None; error := reason; loading := false |}
  end.

(** An error is never shown together with data or with the loading flag. *)
Definition error_alone (st : AsyncState) : Prop :=
  error st <> None -> data st = None /\ loading st = false.

(** The state after a sequence of updates, oldest first. Any order is
    allowed, which covers executions that overlap. *)
Definition run (options : UseAsyncOptions) (evs : list event) : AsyncState :=
  fold_left (fun st ev => setState ev st) evs (initial_state options).

(** The states the hook can expose. *)
Inductive reachable (options : UseAsyncOptions) : AsyncState -> Prop :=
| reach_init : reachable options (initial_state options)
| reach_step st ev :
    reachable options st -> reachable options (setState ev st).

End Hook.

Arguments data {T E} _.
Arguments error {T E} _.
Arguments loading {T E} _.
Arguments initial_state {T E} _.
Arguments setState {T E} _ _.
Arguments run {T E} _ _.
Arguments error_alone {T E} _.
Arguments reachable {T E} _ _.
Arguments Started {T E}.
Arguments Resolved {T E} _.
Arguments Rejected {T E} _.

End UseAsync.

(* ================================================================== *)
(** * api/client.ts *)
(* ================================================================== *)

Module Client.
Import Js.

(** What a promise settles with. A thrown value is an [Error] with its
    message, or something else. *)
Inductive thrown : Type :=
| ErrorObject (message : string)
| NonError.

Inductive settled (A : Type) : Type :=
| Fulfilled (a : A)
| RejectedWith (e : thrown).

Arguments Fulfilled {A} _.
Arguments RejectedWith {A} _.

(** Reading a property of [undefined] or [null] throws a TypeError; the
    message is the one V8 gives. *)
Definition type_error_message : string :=
  "Cannot read properties of undefined (reading 'type')".

(** The properties of [body.strategy] as the three reads see them: [None]
    when the reads throw, no property at all on a primitive. *)
Definition strategy_props (body : object) : option object :=
  match get body "strategy" with
  | VUndefined | VNull => None
  | VObj props => Some props
  | _ => Some []
  end.

(** The [payload] object of [runLottoBacktest]. *)
Definition payload (body : object) : option object :=
  match strategy_props body with
  | None => None
  | Some strategy =>
      Some
        (set "payout_rules" (nullish (get body "payout_rules") VUndefined)
           (set "risk_limits" (nullish (get body "risk_limits") VUndefined)
              (set "strategy"
                 (VObj [ ("type", get strategy "type");
                         ("options", nullish (get strategy "options") (VObj []));
                         ("plugin_id", nullish (get strategy "plugin_id") VNull) ])
                 body)))
  end.

Section Transport.

(** [request(path, { method, body: JSON.stringify(payload) })], given by
    its path, its method and the object that is serialised. *)
Variable request : string -> string -> object -> settled LottoBacktestResponse.t.

Definition runLottoBacktest (body : object) : settled LottoBacktestResponse.t :=
  match payload body with
  | Some p => request "/backtest/lotto/run" "POST" p
  | None => RejectedWith (ErrorObject type_error_message)
  end.

End Transport.

(** A value of a query: string, number, boolean, undefined or null. *)
Inductive query_value : Type :=
| QUndefined
| QNull
| QStr (s : string)
| QNum (n : number)
| QBool (b : bool).

(** A query object: its own properties in order. *)
Definition query : Type := list (string * query_value).

(** A URL, kept in parts: the base it was resolved against, the path, and
    the search parameters in order. [buildUrl] returns its [toString()]. *)
Record URL : Type := {
  base : string;
  pathname : string;
  searchParams : list (string * string) }.

(** [searchParams.set(name, value)]: the first pair of that name takes the
    value and the others are removed; without one the pair is appended. *)
Fixpoint params_set (name val : string) (params : list (string * string))
  : list (string * string) :=
  match params with
  | [] => [(name, val)]
  | (n, v) :: rest =>
      if String.eqb name n
      then (name, val) :: filter (fun kv => negb (String.eqb name (fst kv))) rest
      else (n, v) :: params_set name val rest
  end.

(** The paths the client passes to [request] and [buildUrl], which are not
    exported: string constants, each a slash followed by segments of
    letters and hyphens. *)
Definition endpoints : list string :=
  [ "/stats/summary";
    "/stats/tail-frequencies";
    "/stats/tail-frequencies/by-prize";
    "/stats/frequencies";
    "/results";
    "/predictions/heads";
    "/ingest/refresh";
    "/ingest/day";
    "/ingest/month";
    "/ingest/year";
    "/export/excel";
    "/analytics/backtest/heads";
    "/metadata/regions";
    "/backtest/lotto/run" ].

(** A response of [fetch], by what [request] reads of it. *)
Record HttpResponse (T : Type) : Type := {
  ok : bool;
  statusText : string;
  text : settled string;
  json : settled T }.

Arguments ok {T} _.
Arguments statusText {T} _.
Arguments text {T} _.
Arguments json {T} _.

(** The options of [request]: the query, and of the rest what the calls
    pass: headers, method and the object whose JSON is the body. *)
Record RequestOptions : Type := {
  opt_query : option query;
  opt_headers : option (list (string * string));
  opt_method : option string;
  opt_body : option object }.

(** The second argument of [fetch]. *)
Record FetchInit : Type := {
  init_headers : list (string * string);
  init_method : option string;
  init_body : option object }.

Section Http.

Variable API_BASE_URL : string.

(** [String(value)] on a number. *)
Variable String_of_number : number -> string.

Definition String_of (v : query_value) : string :=
  match v with
  | QUndefined => "undefined"
  | QNull => "null"
  | QStr s => s
  | QNum n => String_of_number n
  | QBool true => "true"
  | QBool false => "false"
  end.

(** The test that makes [buildUrl] skip an entry. *)
Definition skipped (v : query_value) : bool :=
  match v with
  | QUndefined | QNull => true
  | QStr s => String.eqb s ""
  | _ => false
  end.

(** [buildUrl], for the paths of [endpoints] and a base that is a valid
    http URL: [new URL(path, API_BASE_URL)] then keeps such a path as the
    path of the URL and starts without search parameters. (A path with a
    query or a fragment of its own, or an absolute URL in its place, is
    parsed by the constructor instead; the client passes none.) *)
Definition buildUrl (path : string) (q : option query) : URL :=
  {| base := API_BASE_URL;
     pathname := path;
     searchParams :=
       match q with
       | None => []
       | Some entries =>
           fold_left (fun params kv =>
                        if skipped (snd kv) then params
                        else params_set (fst kv) (String_of (snd kv)) params)
                     entries []
       end |}.

(** Spreading string headers over the default content type. *)
Fixpoint header_set (k v : string) (hs : list (string * string)) : list (string * string) :=
  match hs with
  | [] => [(k, v)]
  | (k', v') :: rest =>
      if String.eqb k k' then (k, v) :: rest else (k', v') :: header_set k v rest
  end.

Section Request.

Variable T : Type.
Variable fetch : URL -> FetchInit -> settled (HttpResponse T).

Definition request (path : string) (options : RequestOptions) : settled T :=
  let url := buildUrl path (opt_query options) in
  let init :=
    {| init_headers :=
         fold_left (fun hs kv => header_set (fst kv) (snd kv) hs)
                   (match opt_headers options with Some hs => hs | None => [] end)
                   [("Content-Type", "application/json")];
       init_method := opt_method options;
       init_body := opt_body options |} in
  match fetch url init with
  | RejectedWith e => RejectedWith e
  | Fulfilled response =>
      if ok response then json response
      else
        match text response with
        | RejectedWith e => RejectedWith e
        | Fulfilled detail =>
            RejectedWith
              (ErrorObject (if String.eqb detail "" then statusText response else detail))
        end
  end.

End Request.

(** The [request] call of [runLottoBacktest]: path, method and payload. *)
Definition post (fetch : URL -> FetchInit -> settled (HttpResponse LottoBacktestResponse.t))
  (path method : string) (body : object) : settled LottoBacktestResponse.t :=
  request LottoBacktestResponse.t fetch path
    {| opt_query := None; opt_headers := None;
       opt_method := Some method; opt_body := Some body |}.

(** [GetResultsOptions]: a missing property is [None]; the date may also
    be null or a string. *)
Record GetResultsOptions : Type := {
  limit : option number;
  offset : option number;
  date : query_value }.

(** The URL [getResults] requests. *)
Definition getResults_url (options : GetResultsOptions) : URL :=
  let limit := match limit options with Some n => n | None => Fin 7 end in
  let offset := match offset options with Some n => n | None => Fin 0 end in
  buildUrl "/results"
    (Some [("limit", QNum limit); ("offset", QNum offset); ("date", date options)]).

(** [PredictionOptions]: a missing property is [None]. *)
Record PredictionOptions : Type := {
  po_algorithm : option string;
  po_top_k : option number;
  po_digits : option number;
  po_lookback_draws : option number;
  po_prize_tiers : option (list string);
  po_advanced : option bool;
  po_seed : option number }.

Definition optional (A : Type) (inj : A -> query_value) (v : option A) : query_value :=
  match v with
  | Some a => inj a
  | None => QUndefined
  end.

(** The URL [getPredictions] requests. *)
Definition getPredictions_url (options : PredictionOptions) : URL :=
  let algorithm := match po_algorithm options with Some a => a | None => "frequency" end in
  let top_k := match po_top_k options with Some n => n | None => Fin 5 end in
  buildUrl "/predictions/heads"
    (Some [ ("algorithm", QStr algorithm);
            ("top_k", QNum top_k);
            ("digits", optional number QNum (po_digits options));
            ("lookback_draws", optional number QNum (po_lookback_draws options));
            ("prize_tiers",
              match po_prize_tiers options with
              | Some (t :: ts) => QStr (String.concat "," (t :: ts))
              | _ => QUndefined
              end);
            ("advanced", optional bool QBool (po_advanced options));
            ("seed", optional number QNum (po_seed options)) ]).

(** [BacktestOptions]: a missing property is [None]. *)
Record BacktestOptions : Type := {
  bo_algorithm : option string;
  bo_top_k : option number;
  bo_digits : option number;
  bo_lookback_draws : option number;
  bo_evaluation_draws : option number;
  bo_end_date : option string }.

(** The URL [getBacktestHeads] requests. *)
Definition getBacktestHeads_url (options : BacktestOptions) : URL :=
  let algorithm := match bo_algorithm options with Some a => a | None => "frequency" end in
  let top_k := match bo_top_k options with Some n => n | None => Fin 5 end in
  let digits := match bo_digits options with Some n => n | None => Fin 2 end in
  let evaluation_draws :=
    match bo_evaluation_draws options with Some n => n | None => Fin 30 end in
  buildUrl "/analytics/backtest/heads"
    (Some [ ("algorithm", QStr algorithm);
            ("top_k", QNum top_k);
            ("digits", QNum digits);
            ("lookback_draws", optional number QNum (bo_lookback_draws options));
            ("evaluation_draws", QNum evaluation_draws);
            ("end_date", optional string QStr (bo_end_date options)) ]).

End Http.

End Client.

(* ================================================================== *)
(** * pages/BacktestPro.tsx *)
(* ================================================================== *)

Module BacktestPro.
Import Js Client.

Record StrategyFormState : Type := {
  type : string;
  options : list (string * number);
  plugin_id : option string }.

(** The state of the page: the form fields, then [result], [loading] and
    [error]. *)
Record PageState : Type := {
  capital : number;
  region : string;
  dateStart : string;
  dateEnd : string;
  digits : number;
  topK : number;
  model : string;
  lookback : option number;
  seed : option number;
  riskDaily : number;
  riskSingle : number;
  jackpotMultiplier : number;
  lossMultiplier : number;
  strategyState : StrategyFormState;
  result : option LottoBacktestResponse.t;
  loading : bool;
  error : option string }.

Definition setResult (r : option LottoBacktestResponse.t) (s : PageState) : PageState :=
  {| capital := capital s; region := region s; dateStart := dateStart s;
     dateEnd := dateEnd s; digits := digits s; topK := topK s; model := model s;
     lookback := lookback s; seed := seed s; riskDaily := riskDaily s;
     riskSingle := riskSingle s; jackpotMultiplier := jackpotMultiplier s;
     lossMultiplier := lossMultiplier s; strategyState := strategyState s;
     result := r; loading := loading s; error := error s |}.

Definition setLoading (b : bool) (s : PageState) : PageState :=
  {| capital := capital s; region := region s; dateStart := dateStart s;
     dateEnd := dateEnd s; digits := digits s; topK := topK s; model := model s;
     lookback := lookback s; seed := seed s; riskDaily := riskDaily s;
     riskSingle := riskSingle s; jackpotMultiplier := jackpotMultiplier s;
     lossMultiplier := lossMultiplier s; strategyState := strategyState s;
     result := result s; loading := b; error := error s |}.

Definition setError (e : option string) (s : PageState) : PageState :=
  {| capital := capital s; region := region s; dateStart := dateStart s;
     dateEnd := dateEnd s; digits := digits s; topK := topK s; model := model s;
     lookback := lookback s; seed := seed s; riskDaily := riskDaily s;
     riskSingle := riskSingle s; jackpotMultiplier := jackpotMultiplier s;
     lossMultiplier := lossMultiplier s; strategyState := strategyState s;
     result := result s; loading := loading s; error := e |}.

Definition optional_number (n : option number) : value :=
  match n with
  | Some x => VNum x
  | None => VUndefined
  end.

(** The request body [handleRun] builds from the form. *)
Definition request_body (s : PageState) : object :=
  [ ("capital", VNum (capital s));
    ("date_start", VStr (dateStart s));
    ("date_end", VStr (dateEnd s));
    ("region", if String.eqb (region s) "" then VUndefined else VStr (region s));
    ("model", VStr (model s));
    ("top_k", VNum (topK s));
    ("digits", VNum (digits s));
    ("strategy",
      VObj [ ("type", VStr (type (strategyState s)));
             ("options",
               VObj (map (fun kv => (fst kv, VNum (snd kv)))
                         (options (strategyState s))));
             ("plugin_id",
               match plugin_id (strategyState s) with
               | Some id => VStr id
               | None => VUndefined
               end) ]);
    ("risk_limits",
      VObj [ ("max_daily_stake_ratio", VNum (riskDaily s));
             ("max_single_stake_ratio", VNum (riskSingle s)) ]);
    ("payout_rules",
      VObj [ ("jackpot_multiplier", VNum (jackpotMultiplier s));
             ("loss_multiplier", VNum (lossMultiplier s)) ]);
    ("lookback_draws", optional_number (lookback s));
    ("seed", optional_number (seed s)) ].

Section Page.

Variable request : string -> string -> object -> settled LottoBacktestResponse.t.

(** [handleRun], from the click to the state once the request has settled. *)
Definition handleRun (s : PageState) : PageState :=
  if String.eqb (dateStart s) "" || String.eqb (dateEnd s) "" then
    setError (Some "Vui lòng chọn khoảng thời gian backtest.") s
  else
    let s := setError None (setLoading true s) in
    let s :=
      match runLottoBacktest request (request_body s) with
      | Fulfilled response => setResult (Some response) s
      | RejectedWith (ErrorObject message) => setError (Some message) s
      | RejectedWith NonError => setError (Some "Không thể chạy backtest") s
      end in
    setLoading false s.

End Page.

(** A field of the strategy form; every field has type ['number']. *)
Record StrategyField : Type := {
  key : string;
  field_label : string;
  min : option Q;
  max : option Q;
  step : option Q }.

Record StrategyMeta : Type := {
  meta_label : string;
  meta_description : string;
  riskLevel : string;
  defaults : list (string * number);
  fields : list StrategyField }.

Definition STRATEGY_METADATA : list (string * StrategyMeta) :=
  [ ("fixed",
      {| meta_label := "Cược cố định";
         meta_description := "Giữ nguyên mức cược cho từng con số theo top-K dự đoán.";
         riskLevel := "Thấp";
         defaults := [("amount", Fin 10000); ("count", Fin 5)];
         fields :=
           [ {| key := "amount"; field_label := "Tiền mỗi số (VND)";
                min := Some 1000; max := None; step := Some 1000 |};
             {| key := "count"; field_label := "Số lượng số đặt cược";
                min := Some 1; max := None; step := Some 1 |} ] |});
    ("percentage",
      {| meta_label := "Tỷ lệ % vốn";
         meta_description := "Phân bổ tỷ lệ cố định của vốn hiện tại vào mỗi phiên.";
         riskLevel := "Trung bình";
         defaults := [("percent", Fin (5 # 100))];
         fields :=
           [ {| key := "percent"; field_label := "Phần trăm vốn mỗi kỳ";
                min := Some (1 # 100); max := Some (5 # 10); step := Some (1 # 100) |} ] |});
    ("kelly",
      {| meta_label := "Kelly xác suất";
         meta_description := "Điều chỉnh stake dựa trên công thức Kelly có giới hạn.";
         riskLevel := "Trung bình+";
         defaults := [("jackpot_multiplier", Fin 70); ("max_ratio", Fin (8 # 100))];
         fields :=
           [ {| key := "jackpot_multiplier"; field_label := "Tỉ lệ trả thưởng";
                min := Some 10; max := Some 120; step := Some 1 |};
             {| key := "max_ratio"; field_label := "Giới hạn tỷ lệ Kelly";
                min := Some (1 # 100); max := Some (2 # 10); step := Some (1 # 100) |} ] |});
    ("martingale",
      {| meta_label := "Martingale";
         meta_description := "Tăng cược sau chuỗi thua, reset khi thắng.";
         riskLevel := "Cao";
         defaults := [("base", Fin 5000); ("multiplier", Fin 2)];
         fields :=
           [ {| key := "base"; field_label := "Cược cơ bản (VND)";
                min := Some 1000; max := None; step := Some 1000 |};
             {| key := "multiplier"; field_label := "Hệ số nhân sau mỗi thua";
                min := Some (12 # 10); max := Some 4; step := Some (1 # 10) |} ] |});
    ("probability_weighted",
      {| meta_label := "Theo xác suất mô hình";
         meta_description := "Phân bổ ngân sách theo xác suất dự đoán.";
         riskLevel := "Trung bình";
         defaults := [("budget_ratio", Fin (1 # 10))];
         fields :=
           [ {| key := "budget_ratio"; field_label := "Phần vốn phân bổ";
                min := Some (2 # 100); max := Some (5 # 10); step := Some (1 # 100) |} ] |});
    ("plugin",
      {| meta_label := "Plugin tùy biến";
         meta_description := "Chạy file chiến lược TypeScript tùy chỉnh đặt trong backend.";
         riskLevel := "Tùy thuộc";
         defaults := [];
         fields := [] |}) ].

Fixpoint find_meta (type : string) (table : list (string * StrategyMeta))
  : option StrategyMeta :=
  match table with
  | [] => None
  | (k, m) :: rest => if String.eqb type k then Some m else find_meta type rest
  end.

Definition fixed_meta : StrategyMeta :=
  match find_meta "fixed" STRATEGY_METADATA with
  | Some m => m
  | None => {| meta_label := ""; meta_description := ""; riskLevel := "";
               defaults := []; fields := [] |}
  end.

(** [STRATEGY_METADATA[type] ?? STRATEGY_METADATA.fixed], for a type that is
    a key of the table or no property of an object at all. *)
Definition meta_of (type : string) : StrategyMeta :=
  match find_meta type STRATEGY_METADATA with
  | Some m => m
  | None => fixed_meta
  end.

Definition getDefaultStrategyState (type : string) : StrategyFormState :=
  {| BacktestPro.type := type;
     options := defaults (meta_of type);
     plugin_id := None |}.

(** [handleStrategyChange], the update it passes to [setStrategyState]. *)
Definition handleStrategyChange (nextType : string) (prev : StrategyFormState)
  : StrategyFormState :=
  if String.eqb nextType (BacktestPro.type prev) then prev
  else
    let base := getDefaultStrategyState nextType in
    if String.eqb nextType "plugin"
    then {| BacktestPro.type := BacktestPro.type base; options := options base;
            plugin_id := Some "" |}
    else base.

(** [{ ...options, [key]: value }]. *)
Fixpoint options_set (k : string) (v : number) (opts : list (string * number))
  : list (string * number) :=
  match opts with
  | [] => [(k, v)]
  | (k', v') :: rest =>
      if String.eqb k k' then (k, v) :: rest else (k', v') :: options_set k v rest
  end.

(** The [onChange] of the input of a strategy field, as a function of
    [Number(event.target.value)]. *)
Definition field_onChange (field_key : string) (entered : number)
  (prev : StrategyFormState) : StrategyFormState :=
  {| BacktestPro.type := BacktestPro.type prev;
     options := options_set field_key (if isNaN entered then Fin 0 else entered)
                            (options prev);
     plugin_id := plugin_id prev |}.

(** The [onChange] of the plugin id input. *)
Definition plugin_id_onChange (text : string) (prev : StrategyFormState)
  : StrategyFormState :=
  {| BacktestPro.type := BacktestPro.type prev;
     options := options prev;
     plugin_id := Some text |}.

(** What the user does to the strategy part of the form. *)
Inductive strategy_action : Type :=
| SelectStrategy (type : string)
| EditField (field_key : string) (entered : number)
| EditPluginId (text : string).

(** The page offers a strategy only if it is a key of the table, a field
    input only for a field of the current strategy, and the plugin id
    input only for the plugin strategy; anything else cannot happen and
    leaves the state as it is. *)
Definition strategy_step (st : StrategyFormState) (a : strategy_action)
  : StrategyFormState :=
  match a with
  | SelectStrategy t =>
      if existsb (String.eqb t) (map fst STRATEGY_METADATA)
      then handleStrategyChange t st else st
  | EditField k n =>
      if existsb (fun f => String.eqb k (key f)) (fields (meta_of (BacktestPro.type st)))
      then field_onChange k n st else st
  | EditPluginId text =>
      if String.eqb (BacktestPro.type st) "plugin" then plugin_id_onChange text st else st
  end.

(** The strategy state after a sequence of actions on a fresh page. *)
Definition strategy_after (actions : list strategy_action) : StrategyFormState :=
  fold_left strategy_step actions (getDefaultStrategyState "fixed").

(** The strategy form is well formed: its type is a strategy of the table,
    its options are the parameters of that strategy, in order and none of
    them NaN, and it has a plugin id exactly when it is the plugin
    strategy. *)
Definition strategy_well_formed (st : StrategyFormState) : Prop :=
  In (BacktestPro.type st) (map fst STRATEGY_METADATA) /\
  map fst (options st) = map key (fields (meta_of (BacktestPro.type st))) /\
  Forall (fun kv => snd kv <> NaN) (options st) /\
  (plugin_id st <> None <-> BacktestPro.type st = "plugin").

(** [riskBadge]:
    [result?.config.strategy.risk_level ?? strategyMeta.riskLevel], which
    the page evaluates on every render. [None] is the TypeError of reading
    [risk_level] of a strategy that is undefined or null; a missing or null
    risk level falls back to the level of the strategy chosen in the
    form. *)
Definition riskBadge (s : PageState) : option value :=
  let strategyMeta := meta_of (type (strategyState s)) in
  match result s with
  | None => Some (VStr (riskLevel strategyMeta))
  | Some r =>
      match get (LottoBacktestResponse.config r) "strategy" with
      | VUndefined | VNull => None
      | VObj strategy =>
          Some (nullish (get strategy "risk_level") (VStr (riskLevel strategyMeta)))
      | _ => Some (VStr (riskLevel strategyMeta))
      end
  end.

Section Render.

(** The number formatting of the browser: [toLocaleString('vi-VN')],
    [toFixed(2)], and [(x * 100).toFixed(2)] with its product taken in
    doubles. *)
Variable toLocaleString_vi : Q -> string.
Variable toFixed2 : Q -> string.
Variable percent_toFixed2 : Q -> string.

Definition formatCurrency (value : Q) : string := toLocaleString_vi value.

(** The rows of [SummaryTable], label and value. *)
Definition SummaryTable (result : LottoBacktestResponse.t) : list (string * string) :=
  let summary := LottoBacktestResponse.summary result in
  [ ("Vốn cuối", formatCurrency (LottoBacktestSummary.final_balance summary) ++ " VND");
    ("Tổng giao dịch", toLocaleString_vi (LottoBacktestSummary.total_bets summary));
    ("Tỉ lệ thắng", percent_toFixed2 (LottoBacktestSummary.win_rate summary) ++ "%");
    ("Max drawdown", formatCurrency (LottoBacktestSummary.max_drawdown summary) ++ " VND");
    ("Best month",
      match LottoBacktestSummary.best_month summary with
      | Some month =>
          if String.eqb month "" then "—"
          else month ++ " ("
               ++ formatCurrency
                    (match LottoBacktestSummary.best_month_pnl summary with
                     | Some pnl => pnl
                     | None => 0
                     end)
               ++ " VND)"
      | None => "—"
      end);
    ("Sharpe-like",
      match LottoBacktestSummary.sharpe_like summary with
      | Some sharpe => if is_zero sharpe then "—" else toFixed2 sharpe
      | None => "—"
      end);
    ("Độ chính xác mô hình", percent_toFixed2 (LottoBacktestSummary.accuracy summary) ++ "%");
    ("Lí do dừng",
      if String.eqb (LottoBacktestSummary.stop_reason summary) "capital_depleted"
      then "Hết vốn" else "Hoàn tất phạm vi") ].

(** The results section of the page: nothing without a result; else the
    capital warning when the run stopped on depleted capital, and the
    summary table. (Exports, charts, heat map and trade log follow.) *)
Record results_section : Type := {
  capital_warning : bool;
  summary_rows : list (string * string) }.

Definition render_results (s : PageState) : option results_section :=
  match result s with
  | None => None
  | Some r =>
      Some {| capital_warning :=
                String.eqb
                  (LottoBacktestSummary.stop_reason (LottoBacktestResponse.summary r))
                  "capital_depleted";
              summary_rows := SummaryTable r |}
  end.

(** What the page shows of its state: the label and the risk badge of the
    header, the run button, the error text next to it (an empty text shows
    nothing), the loading placeholder and the results section. *)
Record page_view : Type := {
  strategy_label : string;
  risk_badge : value;
  run_disabled : bool;
  form_error : option string;
  loading_state : bool;
  results : option results_section }.

(** A render of the page; [None] when the render throws. *)
Definition render (s : PageState) : option page_view :=
  match riskBadge s with
  | None => None
  | Some badge =>
      Some {| strategy_label := meta_label (meta_of (type (strategyState s)));
              risk_badge := badge;
              run_disabled := loading s;
              form_error :=
                match error s with
                | Some message => if String.eqb message "" then None else Some message
                | None => None
                end;
              loading_state :=
                loading s && match result s with Some _ => false | None => true end;
              results := render_results s |}
  end.

End Render.

End BacktestPro.

(* ================================================================== *)
(** * App.tsx *)
(* ================================================================== *)

Module App.
Import Js Client.

Inductive FeedbackType : Type :=
| success
| error.

(** The part of the state of [App] that the Excel export reads and
    writes. *)
Record ExportState : Type := {
  exportStart : string;
  exportEnd : string;
  exporting : bool;
  feedback : option string;
  feedbackType : FeedbackType }.

Definition setFeedback (t : FeedbackType) (msg : string) (s : ExportState) : ExportState :=
  {| exportStart := exportStart s; exportEnd := exportEnd s;
     exporting := exporting s; feedback := Some msg; feedbackType := t |}.

Definition setExporting (b : bool) (s : ExportState) : ExportState :=
  {| exportStart := exportStart s; exportEnd := exportEnd s;
     exporting := b; feedback := feedback s; feedbackType := feedbackType s |}.

(** [Number.isFinite]. *)
Definition isFinite (n : number) : bool :=
  match n with
  | Fin _ => true
  | _ => false
  end.

(** [a > b] on numbers. *)
Definition number_gt (a b : number) : bool :=
  match a, b with
  | NaN, _ | _, NaN => false
  | Fin p, Fin q => gt p q
  | PosInf, PosInf => false
  | PosInf, _ => true
  | _, NegInf => match a with NegInf => false | _ => true end
  | _, _ => false
  end.

Definition nonempty (s : string) : option string :=
  if String.eqb s "" then None else Some s.

Section Download.

(** [new Date(text).valueOf()]. *)
Variable Date_valueOf : string -> number.

(** [downloadResultsExcel({ start_date, end_date })], settled with the file
    name of the download. *)
Variable downloadResultsExcel : option string -> option string -> settled string.

Variable formatDateShort : string -> string.

(** [handleDownloadExcel]: the state once the handler is done, and the
    file names handed to the browser for download. *)
Definition handleDownloadExcel (s : ExportState) : ExportState * list string :=
  let reversed :=
    negb (String.eqb (exportStart s) "") && negb (String.eqb (exportEnd s) "")
    && (isFinite (Date_valueOf (exportStart s))
        && isFinite (Date_valueOf (exportEnd s))
        && number_gt (Date_valueOf (exportStart s)) (Date_valueOf (exportEnd s))) in
  if reversed then
    (setFeedback error "Ngày bắt đầu phải trước hoặc bằng ngày kết thúc." s, [])
  else
    let s1 := setExporting true s in
    match downloadResultsExcel (nonempty (exportStart s)) (nonempty (exportEnd s)) with
    | Fulfilled filename =>
        let startLabel :=
          match nonempty (exportStart s) with
          | Some d => formatDateShort d
          | None => "từ đầu năm"
          end in
        let endLabel :=
          match nonempty (exportEnd s) with
          | Some d => formatDateShort d
          | None => "đến hôm nay"
          end in
        (setExporting false
           (setFeedback success
              ("Đã tải tệp Excel (" ++ startLabel ++ " → " ++ endLabel ++ ").") s1),
         [filename])
    | RejectedWith (ErrorObject message) =>
        (setExporting false (setFeedback error message s1), [])
    | RejectedWith NonError =>
        (setExporting false (setFeedback error "Không thể tải Excel." s1), [])
    end.

End Download.

(** [buildResultsOptions]; [date] is the string given, if any. *)
Definition buildResultsOptions (limit offset : option number) (date : option string)
  : GetResultsOptions :=
  {| Client.limit := limit;
     Client.offset := offset;
     Client.date :=
       match date with
       | Some d => if (0 <? String.length d)%nat then QStr d else QUndefined
       | None => QUndefined
       end |}.

(** The URL of the results request of [App], for the number of draws and
    the date filter of the page. *)
Definition results_url (API_BASE_URL : string) (String_of_number : number -> string)
  (resultsLimit : number) (selectedDate : string) : URL :=
  getResults_url API_BASE_URL String_of_number
    (buildResultsOptions (Some resultsLimit) None (Some selectedDate)).

End App.

(* ================================================================== *)
(** * components/AlgorithmSelector.tsx *)
(* ================================================================== *)

Module AlgorithmSelector.
Import Js.

(** [handleDigitsChange], as a function of [Number(event.target.value)];
    the result is the argument passed to [onDigitsChange]. *)
Definition handleDigitsChange (entered : number) : number :=
  let value := or_else entered (Fin 2) in
  Math_min (Math_max value (Fin 1)) (Fin 5).

(** [handleTopKChange]: the argument passed to [onTopKChange]. *)
Definition handleTopKChange (entered : number) : number :=
  or_else entered (Fin 1).

(** [handleLookbackChange]: the argument passed to [onLookbackChange]. *)
Definition handleLookbackChange (entered : number) : number :=
  let value := or_else entered (Fin 30) in
  Math_max value (Fin 10).

Record AlgorithmDescriptor : Type := {
  value : string;
  label : string;
  category : string;
  description : string;
  advanced : option bool;
  badge : option string }.

Definition ALGORITHMS : list AlgorithmDescriptor :=
  [ {| value := "frequency";
       label := "Tần suất cổ điển";
       category := "Cổ điển";
       description := "Đếm tần suất xuất hiện và ưu tiên các đầu số nóng trong cửa sổ quan sát.";
       advanced := None; badge := None |};
    {| value := "trend";
       label := "Xu hướng động";
       category := "Cổ điển";
       description := "Phân tích moving average và độ dốc để phát hiện đầu số tăng tốc.";
       advanced := None; badge := None |};
    {| value := "markov";
       label := "Chuỗi Markov";
       category := "Xác suất";
       description := "Mô hình hóa chuyển tiếp giữa các trạng thái đầu số, dự đoán điểm hội tụ tiếp theo.";
       advanced := None; badge := None |};
    {| value := "montecarlo";
       label := "Monte Carlo";
       category := "Xác suất";
       description := "Giả lập hàng ngàn phiên quay dựa trên xác suất lịch sử để trích xuất phân phối đầu số.";
       advanced := None; badge := None |};
    {| value := "randomized";
       label := "Ngẫu nhiên có trọng số";
       category := "Xác suất";
       description := "Tăng gia vị bằng random seed nhưng vẫn duy trì trọng số theo dữ liệu.";
       advanced := None; badge := None |};
    {| value := "randomforest";
       label := "Random Forest";
       category := "AI nâng cao";
       description := "Học máy với hàng trăm cây quyết định, đánh giá xác suất xuất hiện của từng đầu số.";
       advanced := Some true; badge := Some "Advanced" |};
    {| value := "lstm";
       label := "Bi-LSTM";
       category := "AI nâng cao";
       description := "Mạng nơ-ron tuần tự hai chiều, xử lý ký ức dài và nắm bắt pattern phức tạp.";
       advanced := Some true; badge := Some "Advanced" |};
    {| value := "genetic";
       label := "Genetic Algorithm";
       category := "AI nâng cao";
       description := "Tiến hóa quần thể đầu số, chọn lọc tự nhiên để tìm lời giải bá đạo.";
       advanced := Some true; badge := Some "Bá đạo" |};
    {| value := "naivebayes";
       label := "Naive Bayes";
       category := "AI nâng cao";
       description := "Ước lượng xác suất theo giả định độc lập, cực kỳ nhanh cho phân tích tức thời.";
       advanced := Some true; badge := None |};
    {| value := "prophet";
       label := "Prophet Time-Series";
       category := "AI nâng cao";
       description := "Mô hình dự báo thời gian theo xu hướng + mùa vụ, đặc biệt phù hợp chu kỳ xổ số.";
       advanced := Some true; badge := None |} ].

(** [Array.from(new Set(xs))]: the distinct strings, each at its first
    occurrence. *)
Fixpoint distinct (seen xs : list string) : list string :=
  match xs with
  | [] => []
  | x :: rest =>
      if existsb (String.eqb x) seen then distinct seen rest
      else x :: distinct (x :: seen) rest
  end.

Definition categories_of (algorithms : list AlgorithmDescriptor) : list string :=
  distinct [] (map category algorithms).

Definition categories : list string := categories_of ALGORITHMS.

(** An option of the select: [disabled] is
    [Boolean(item.advanced && !advanced)]. *)
Record option_view : Type := {
  option_value : string;
  option_text : string;
  option_disabled : bool }.

Definition render_option (advanced_mode : bool) (item : AlgorithmDescriptor) : option_view :=
  {| option_value := value item;
     option_text :=
       label item ++ match badge item with
                     | Some b => if String.eqb b "" then "" else " [" ++ b ++ "]"
                     | None => ""
                     end;
     option_disabled :=
       match advanced item with
       | Some true => negb advanced_mode
       | _ => false
       end |}.

(** The option groups of the select, one per category. *)
Definition render_groups (algorithms : list AlgorithmDescriptor) (advanced_mode : bool)
  : list (string * list option_view) :=
  map (fun c =>
         (c, map (render_option advanced_mode)
                 (filter (fun item => String.eqb (category item) c) algorithms)))
      (categories_of algorithms).

(** All options of the select, in the order they are shown. *)
Definition render_options (algorithms : list AlgorithmDescriptor) (advanced_mode : bool)
  : list option_view :=
  flat_map snd (render_groups algorithms advanced_mode).

End AlgorithmSelector.

(* ================================================================== *)
(** * App.tsx: the state of the prediction controls *)
(* ================================================================== *)

Module AppControls.
Import Js.

Definition DEFAULT_BACKTEST_WINDOW : number := Fin 30.

Record Controls : Type := {
  algorithm : string;
  topK : number;
  digits : number;
  lookback : number;
  advancedMode : bool;
  backtestWindow : number }.

(** The [useState] defaults of [App]. *)
Definition initial : Controls :=
  {| algorithm := "frequency";
     topK := Fin 5;
     digits := Fin 2;
     lookback := Fin 120;
     advancedMode := false;
     backtestWindow := DEFAULT_BACKTEST_WINDOW |}.

(** [new Set(['randomforest', 'lstm', 'genetic', 'naivebayes', 'prophet'])]
    of [handleAdvancedToggle]. *)
Definition advancedSet : list string :=
  ["randomforest"; "lstm"; "genetic"; "naivebayes"; "prophet"].

(** [handleAdvancedToggle]. *)
Definition handleAdvancedToggle (value : bool) (c : Controls) : Controls :=
  {| algorithm :=
       if value then algorithm c
       else if existsb (String.eqb (algorithm c)) advancedSet then "frequency"
       else algorithm c;
     topK := topK c;
     digits := digits c;
     lookback := lookback c;
     advancedMode := value;
     backtestWindow := backtestWindow c |}.

(** What the user does to the controls. An entry in a number field comes
    as [Number(event.target.value)]; a choice in the select comes as the
    value of the chosen option. *)
Inductive action : Type :=
| ChooseAlgorithm (value : string)
| EnterTopK (entered : number)
| EnterDigits (entered : number)
| EnterLookback (entered : number)
| ToggleAdvanced (checked : bool)
| EnterBacktestWindow (entered : number).

(** The browser lets the user choose an option only if it is in the select
    and not disabled. *)
Definition selectable (c : Controls) (v : string) : bool :=
  existsb (fun o => String.eqb (AlgorithmSelector.option_value o) v
                    && negb (AlgorithmSelector.option_disabled o))
          (AlgorithmSelector.render_options AlgorithmSelector.ALGORITHMS (advancedMode c)).

(** The state after an action: the handler of the control, then the
    setter of [App] it is wired to. *)
Definition step (c : Controls) (a : action) : Controls :=
  match a with
  | ChooseAlgorithm v =>
      if selectable c v then
        {| algorithm := v; topK := topK c; digits := digits c; lookback := lookback c;
           advancedMode := advancedMode c; backtestWindow := backtestWindow c |}
      else c
  | EnterTopK n =>
      {| algorithm := algorithm c; topK := AlgorithmSelector.handleTopKChange n;
         digits := digits c; lookback := lookback c;
         advancedMode := advancedMode c; backtestWindow := backtestWindow c |}
  | EnterDigits n =>
      {| algorithm := algorithm c; topK := topK c;
         digits := AlgorithmSelector.handleDigitsChange n; lookback := lookback c;
         advancedMode := advancedMode c; backtestWindow := backtestWindow c |}
  | EnterLookback n =>
      {| algorithm := algorithm c; topK := topK c; digits := digits c;
         lookback := AlgorithmSelector.handleLookbackChange n;
         advancedMode := advancedMode c; backtestWindow := backtestWindow c |}
  | ToggleAdvanced b => handleAdvancedToggle b c
  | EnterBacktestWindow n =>
      {| algorithm := algorithm c; topK := topK c; digits := digits c;
         lookback := lookback c; advancedMode := advancedMode c;
         backtestWindow :=
           PredictionPanel.handleBacktestWindowChange (backtestWindow c) n |}
  end.

Definition after (actions : list action) : Controls := fold_left step actions initial.

(** The numeric settings are in range: digits in [1,5], top-k neither 0
    nor NaN, lookback at least 10, backtest window in [5,200]. *)
Definition settings_in_range (c : Controls) : Prop :=
  (exists d, digits c = Fin d /\ 1 <= d /\ d <= 5) /\
  truthy (topK c) = true /\
  (lookback c = PosInf \/ exists l, lookback c = Fin l /\ 10 <= l) /\
  (exists w, backtestWindow c = Fin w /\ 5 <= w /\ w <= 200).

(** The URLs of the two requests [App] makes from the controls: the
    prediction ([predictionState]) and the backtest ([backtestState]). *)
Definition predictions_url (API_BASE_URL : string) (String_of_number : number -> string)
  (c : Controls) : Client.URL :=
  Client.getPredictions_url API_BASE_URL String_of_number
    {| Client.po_algorithm := Some (algorithm c);
       Client.po_top_k := Some (topK c);
       Client.po_digits := Some (digits c);
       Client.po_lookback_draws := Some (lookback c);
       Client.po_prize_tiers := None;
       Client.po_advanced := Some (advancedMode c);
       Client.po_seed := None |}.

Definition backtest_url (API_BASE_URL : string) (String_of_number : number -> string)
  (c : Controls) : Client.URL :=
  Client.getBacktestHeads_url API_BASE_URL String_of_number
    {| Client.bo_algorithm := Some (algorithm c);
       Client.bo_top_k := Some (topK c);
       Client.bo_digits := Some (digits c);
       Client.bo_lookback_draws := Some (lookback c);
       Client.bo_evaluation_draws := Some (backtestWindow c);
       Client.bo_end_date := None |}.

End AppControls.

(* ================================================================== *)
(** * The backtest engine behind POST /backtest/lotto/run *)
(* ================================================================== *)

(** The engine runs in the backend (FastAPI), whose code is not among the
    sources embedded above: the front end only posts the configuration and
    reads the response. This module follows the written contract of the
    engine: data model, validation, day loop, risk limiter and payout
    calculator. Amounts are exact rationals; a date is its day number. The
    reduction of the timeline into statistics and chart series is left
    out. *)
Module Engine.

(** Modelled from the spec: a calendar date of the backend engine, kept as
    a day number. *)
Definition Date : Type := Z.

(** Modelled from the spec: risk_limits of BacktestConfig (section 3); the
    backend type is missing. *)
Record RiskLimits : Type := {
  max_daily_stake_ratio : Q;
  max_single_stake_ratio : Q }.

(** Modelled from the spec: payout_rules of BacktestConfig (section 3); the
    backend type is missing. *)
Record PayoutRules : Type := {
  jackpot_multiplier : Q;
  loss_multiplier : Q }.

(** Modelled from the spec: the strategy descriptor of BacktestConfig
    (type, options mapping, optional plugin reference); the backend type is
    missing. *)
Record StrategyDescriptor : Type := {
  type : string;
  options : list (string * Q);
  plugin_id : option string }.

(** Modelled from the spec: BacktestConfig, the immutable input of one run
    of the backend engine (section 3). *)
Record BacktestConfig : Type := {
  capital : Q;
  date_start : Date;
  date_end : Date;
  region : string;
  model : string;
  top_k : Z;
  digits : Z;
  strategy : StrategyDescriptor;
  payout_rules : PayoutRules;
  risk_limits : RiskLimits;
  lookback_draws : option Z;
  seed : option Z }.

(** Modelled from the spec: DrawRecord of the backend (section 3), a date
    and the official prize numbers in order. *)
Record DrawRecord : Type := {
  draw_date : Date;
  prize_numbers : list string }.

(** Modelled from the spec: an entry of a PredictionSet of the backend
    (section 3). *)
Record Prediction : Type := {
  rank : Z;
  number : string;
  probability : Q }.

(** Modelled from the spec: PredictionSet, the ranked entries of a day. *)
Definition PredictionSet : Type := list Prediction.

(** Modelled from the spec: StakeProposal of the backend (section 3), the
    numbers with their raw stakes. *)
Definition StakeProposal : Type := list (string * Q).

(** Modelled from the spec: Bet of the backend (section 3). *)
Record Bet : Type := {
  bet_number : string;
  stake : Q;
  bet_rank : Z;
  bet_probability : Q;
  hit : bool;
  payout_net : Q }.

(** Modelled from the spec: TimelineEntry of the backend (section 3). *)
Record TimelineEntry : Type := {
  date : Date;
  capital_start : Q;
  capital_end : Q;
  stake_total : Q;
  pnl : Q;
  bets : list Bet;
  predictions : PredictionSet;
  hits : list string;
  drawdown : Q;
  daily_return : Q;
  capital_halted : bool }.

(** Modelled from the spec: stop_reason of SummaryStats (section 3). *)
Inductive StopReason : Type :=
| completed
| capital_depleted.

(** Modelled from the spec: the causes of a ConfigError of the backend
    engine (section 4.1), one per check. *)
Inductive ConfigError : Type :=
| DateRangeReversed
| CapitalNotPositive
| DigitsOutOfRange
| DailyRatioOutOfRange
| SingleRatioOutOfRange.

(** Modelled from the spec: the collaborators the backend engine calls
    (sections 2 and 6), logged in order: the log tells whether any
    simulation step was taken. *)
Inductive call : Type :=
| Fetch
| Score (d : Date)
| Propose (d : Date).

(** Modelled from the spec: the outcomes of [run] of the backend engine
    (sections 4.1 and 7): ConfigError, DataUnavailableError, StrategyError
    with the timeline accumulated so far, or the timeline with its stop
    reason. *)
Inductive RunResult : Type :=
| FailConfig (e : ConfigError)
| FailDataUnavailable
| FailStrategy (at_date : Date) (timeline_so_far : list TimelineEntry)
| Ran (timeline : list TimelineEntry) (stop_reason : StopReason).

Definition Qsum (xs : list Q) : Q := fold_right Qplus 0 xs.

(** Modelled from the spec: a risk ratio of the backend configuration lies
    in (0, 1] (section 3). *)
Definition ratio_ok (r : Q) : bool := negb (Qle_bool r 0) && Qle_bool r 1.

(** Modelled from the spec: the checks of [run] of the backend engine that
    fail with ConfigError (section 4.1: date_start > date_end, capital <= 0,
    digits outside [1,5], either risk ratio outside (0,1]). *)
Definition validate (c : BacktestConfig) : option ConfigError :=
  if (date_end c <? date_start c)%Z then Some DateRangeReversed
  else if Qle_bool (capital c) 0 then Some CapitalNotPositive
  else if ((digits c <? 1) || (5 <? digits c))%Z then Some DigitsOutOfRange
  else if negb (ratio_ok (max_daily_stake_ratio (risk_limits c)))
       then Some DailyRatioOutOfRange
  else if negb (ratio_ok (max_single_stake_ratio (risk_limits c)))
       then Some SingleRatioOutOfRange
  else None.

(** The trailing [n] characters of a prize number. *)
Definition head_of (n : nat) (s : string) : string :=
  substring (String.length s - n) n s.

(** Modelled from the spec: the head set of a draw in the backend, the
    trailing [digits] characters of its numbers without repetition
    (section 3). *)
Definition head_set (digits : Z) (d : DrawRecord) : list string :=
  nodup string_dec (map (head_of (Z.to_nat digits)) (prize_numbers d)).

Definition Qmin2 (a b : Q) : Q := if Qle_bool a b then a else b.
Definition Qmax2 (a b : Q) : Q := if Qle_bool a b then b else a.

(** Modelled from the spec: RiskLimiter.clamp of the backend (section 4.3).
    Each stake is capped to the single-stake limit; if the capped stakes
    exceed the daily limit they are all scaled by daily_cap / sum; zero
    stakes are dropped. *)
Definition clamp (capital_start : Q) (proposal : StakeProposal) (limits : RiskLimits)
  : StakeProposal :=
  let single_cap := capital_start * max_single_stake_ratio limits in
  let daily_cap := capital_start * max_daily_stake_ratio limits in
  let capped := map (fun ns => (fst ns, Qmin2 (snd ns) single_cap)) proposal in
  let total := Qsum (map snd capped) in
  let scaled :=
    if Qle_bool total daily_cap then capped
    else map (fun ns => (fst ns, snd ns * (daily_cap / total))) capped in
  filter (fun ns => negb (Qle_bool (snd ns) 0)) scaled.

(** Modelled from the spec: PayoutCalculator.resolve of the backend
    (section 4.4): a bet hits iff its number is in the head set; the net
    payout is stake x (jackpot_multiplier - 1) on a hit and stake x
    loss_multiplier on a miss. *)
Definition resolve (number : string) (stake : Q) (heads : list string)
  (rules : PayoutRules) : bool * Q :=
  if existsb (String.eqb number) heads
  then (true, stake * (jackpot_multiplier rules - 1))
  else (false, stake * loss_multiplier rules).

(** Each entry starts with the capital the entry before it ended with. *)
Definition chained (tl : list TimelineEntry) : Prop :=
  forall i e1 e2,
    nth_error tl i = Some e1 -> nth_error tl (S i) = Some e2 ->
    capital_start e2 = capital_end e1.

(** A configuration [run] must refuse, in the terms of the contract. *)
Definition invalid_config (c : BacktestConfig) : Prop :=
  (date_end c < date_start c)%Z \/
  capital c <= 0 \/
  (digits c < 1)%Z \/ (5 < digits c)%Z \/
  ~ (0 < max_daily_stake_ratio (risk_limits c) /\
     max_daily_stake_ratio (risk_limits c) <= 1) \/
  ~ (0 < max_single_stake_ratio (risk_limits c) /\
     max_single_stake_ratio (risk_limits c) <= 1).

Section Run.

(** The collaborators of the engine are parameters of the run, as the
    contract leaves them open (section 6). The strategy state carried from
    day to day: *)
Variable StrategyState : Type.

(** DrawHistoryProvider.fetch: the draws of a region and range, by date. *)
Variable fetch : string -> Date -> Date -> list DrawRecord.

(** PredictionModel.score for a day, from the history before that day. *)
Variable score : string -> Date -> option Z -> Z -> Z -> option Z -> PredictionSet.

(** StakingStrategy.propose; [None] is a StrategyError. *)
Variable propose :
  StrategyDescriptor -> Q -> PredictionSet -> StrategyState ->
  option (StakeProposal * StrategyState).

Variable initial_strategy_state : StrategyState.

(** The minimum viable stake below which the engine halts. *)
Variable min_viable_stake : Q.

(** Modelled from the spec: the state the backend day loop carries
    (section 4.1): capital, running peak, halted flag, strategy state. *)
Record EngineState : Type := {
  current_capital : Q;
  running_peak : option Q;
  halted : bool;
  strategy_state : StrategyState }.

(** Modelled from the spec: the state before day 1 of the backend loop,
    capital = config.capital (section 3, first invariant). *)
Definition initial_state (c : BacktestConfig) : EngineState :=
  {| current_capital := capital c;
     running_peak := None;
     halted := false;
     strategy_state := initial_strategy_state |}.

Definition lookup_prediction (n : string) (ps : PredictionSet) : option Prediction :=
  find (fun p => String.eqb (number p) n) ps.

(** Modelled from the spec: step 5 of the backend day loop, a committed
    stake resolved into a Bet. *)
Definition make_bet (c : BacktestConfig) (heads : list string) (ps : PredictionSet)
  (ns : string * Q) : Bet :=
  let '(h, net) := resolve (fst ns) (snd ns) heads (payout_rules c) in
  {| bet_number := fst ns;
     stake := snd ns;
     bet_rank := match lookup_prediction (fst ns) ps with Some p => rank p | None => 0%Z end;
     bet_probability :=
       match lookup_prediction (fst ns) ps with Some p => probability p | None => 0 end;
     hit := h;
     payout_net := net |}.

(** Modelled from the spec: step 1 of the backend day loop (section 4.1),
    the pass-through entry of a halted day. *)
Definition halted_entry (st : EngineState) (d : DrawRecord) : TimelineEntry :=
  {| date := draw_date d;
     capital_start := current_capital st;
     capital_end := current_capital st;
     stake_total := 0;
     pnl := 0;
     bets := [];
     predictions := [];
     hits := [];
     drawdown :=
       match running_peak st with
       | Some peak => Qmax2 0 (peak - current_capital st)
       | None => 0
       end;
     daily_return := 0;
     capital_halted := true |}.

(** Modelled from the spec: steps 2 to 7 of the backend day loop (section
    4.1) for a day that is not halted; [None] when the strategy fails. *)
Definition active_day (c : BacktestConfig) (st : EngineState) (d : DrawRecord)
  : option (TimelineEntry * EngineState) :=
  let ps := score (model c) (draw_date d) (lookback_draws c) (digits c) (top_k c) (seed c) in
  match propose (strategy c) (current_capital st) ps (strategy_state st) with
  | None => None
  | Some (proposal, sst) =>
      let heads := head_set (digits c) d in
      let day_bets :=
        map (make_bet c heads ps) (clamp (current_capital st) proposal (risk_limits c)) in
      let day_pnl := Qsum (map payout_net day_bets) in
      let cap_end := current_capital st + day_pnl in
      let peak :=
        match running_peak st with
        | Some p => Qmax2 p cap_end
        | None => cap_end
        end in
      let stop := Qle_bool cap_end 0 || Qle_bool cap_end min_viable_stake in
      Some ({| date := draw_date d;
               capital_start := current_capital st;
               capital_end := cap_end;
               stake_total := Qsum (map stake day_bets);
               pnl := day_pnl;
               bets := day_bets;
               predictions := ps;
               hits := map bet_number (filter hit day_bets);
               drawdown := Qmax2 0 (peak - cap_end);
               daily_return :=
                 if Qeq_bool (current_capital st) 0 then 0
                 else day_pnl / current_capital st;
               capital_halted := stop |},
            {| current_capital := cap_end;
               running_peak := Some peak;
               halted := stop;
               strategy_state := sst |})
  end.

(** Modelled from the spec: the backend day loop over the draws in date
    order (section 4.1). It
    returns the calls made, the timeline, the final state, and the date of
    a strategy failure if there was one. *)
Fixpoint simulate (c : BacktestConfig) (st : EngineState) (draws : list DrawRecord)
  : list call * list TimelineEntry * EngineState * option Date :=
  match draws with
  | [] => ([], [], st, None)
  | d :: rest =>
      if halted st then
        let '(calls, tl, st', err) := simulate c st rest in
        (calls, halted_entry st d :: tl, st', err)
      else
        match active_day c st d with
        | None => ([Score (draw_date d); Propose (draw_date d)], [], st, Some (draw_date d))
        | Some (entry, st1) =>
            let '(calls, tl, st', err) := simulate c st1 rest in
            (Score (draw_date d) :: Propose (draw_date d) :: calls, entry :: tl, st', err)
        end
  end.

(** Modelled from the spec: [run(config)] of the backend engine (section
    4.1), with the calls it made to its collaborators. *)
Definition run (c : BacktestConfig) : list call * RunResult :=
  match validate c with
  | Some e => ([], FailConfig e)
  | None =>
      match fetch (region c) (date_start c) (date_end c) with
      | [] => ([Fetch], FailDataUnavailable)
      | draws =>
          let '(calls, tl, st, err) := simulate c (initial_state c) draws in
          (Fetch :: calls,
           match err with
           | Some d => FailStrategy d tl
           | None => Ran tl (if halted st then capital_depleted else completed)
           end)
      end
  end.

End Run.

Fixpoint option_value (k : string) (opts : list (string * Q)) : option Q :=
  match opts with
  | [] => None
  | (k', v) :: rest => if String.eqb k k' then Some v else option_value k rest
  end.

(** Modelled from the spec: the fixed staking strategy, which like the rest
    of the engine is backend code (section 4.2): a constant [amount] on each
    of the first [count] ranked candidates, as many as are available. *)
Definition fixed_strategy (s : StrategyDescriptor) (capital_start : Q)
  (ps : PredictionSet) (st : unit) : option (StakeProposal * unit) :=
  match option_value "amount" (options s), option_value "count" (options s) with
  | Some amount, Some count =>
      Some (map (fun p => (number p, amount)) (firstn (Z.to_nat (Qfloor count)) ps), tt)
  | _, _ => None
  end.

End Engine.

(* ================================================================== *)
(** * Sample data: the fixtures of the tests and the defaults of the form *)
(* ================================================================== *)

Module Samples.
Import Js.

Definition heads_response : PredictionResponse.t :=
  {| PredictionResponse.algorithm := "frequency";
     PredictionResponse.label := "Frequency";
     PredictionResponse.timestamp := "2025-02-03T12:00:00Z";
     PredictionResponse.metadata := [];
     PredictionResponse.recommended_heads := ["12"; "34"; "56"];
     PredictionResponse.results := [];
     PredictionResponse.scores := [];
     PredictionResponse.notes := None;
     PredictionResponse.related := None |}.

(** The summary of [mockBacktestResult] (BacktestPro.test.tsx), as the
    object the test declares. *)
Definition mock_summary_object : object :=
  [ ("final_balance", VNum (Fin 1250000));
    ("total_bets", VNum (Fin 45));
    ("total_wins", VNum (Fin 18));
    ("total_losses", VNum (Fin 27));
    ("win_rate", VNum (Fin (4 # 10)));
    ("max_drawdown", VNum (Fin 150000));
    ("best_month", VStr "2025-01");
    ("best_month_pnl", VNum (Fin 220000));
    ("sharpe_like", VNum (Fin (112 # 100)));
    ("accuracy", VNum (Fin (5 # 10)));
    ("stop_reason", VStr "completed") ].

(** The timeline entry of [mockBacktestResult]. *)
Definition mock_timeline_entry_object : object :=
  [ ("date", VStr "2025-01-01");
    ("capital_start", VNum (Fin 1000000));
    ("capital_end", VNum (Fin 1020000));
    ("stake_total", VNum (Fin 50000));
    ("pnl", VNum (Fin 20000));
    ("bets",
      VArr [ VObj [ ("number", VStr "12"); ("stake", VNum (Fin 25000));
                    ("hit", VBool true); ("payout", VNum (Fin 100000));
                    ("rank", VNum (Fin 1)); ("probability", VNum (Fin (4 # 10))) ];
             VObj [ ("number", VStr "34"); ("stake", VNum (Fin 25000));
                    ("hit", VBool false); ("payout", VNum (Fin 0));
                    ("rank", VNum (Fin 2)); ("probability", VNum (Fin (3 # 10))) ] ]);
    ("predictions",
      VArr [ VObj [ ("rank", VNum (Fin 1)); ("number", VStr "12");
                    ("probability", VNum (Fin (4 # 10))) ];
             VObj [ ("rank", VNum (Fin 2)); ("number", VStr "34");
                    ("probability", VNum (Fin (3 # 10))) ] ]);
    ("hits", VArr [VStr "12"]);
    ("drawdown", VNum (Fin 0));
    ("daily_return", VNum (Fin (2 # 100)));
    ("capital_halted", VBool false) ].

Definition mock_summary (stop_reason : string) : LottoBacktestSummary.t :=
  {| LottoBacktestSummary.final_balance := 1250000;
     LottoBacktestSummary.total_bets := 45;
     LottoBacktestSummary.total_wins := 18;
     LottoBacktestSummary.total_losses := 27;
     LottoBacktestSummary.win_rate := 4 # 10;
     LottoBacktestSummary.max_drawdown := 150000;
     LottoBacktestSummary.best_month := Some "2025-01";
     LottoBacktestSummary.best_month_pnl := Some 220000;
     LottoBacktestSummary.sharpe_like := Some (112 # 100);
     LottoBacktestSummary.accuracy := 5 # 10;
     LottoBacktestSummary.stop_reason := stop_reason |}.

Definition mock_timeline_entry : LottoTimelineEntry.t :=
  {| LottoTimelineEntry.date := "2025-01-01";
     LottoTimelineEntry.capital_start := 1000000;
     LottoTimelineEntry.capital_end := 1020000;
     LottoTimelineEntry.stake_total := 50000;
     LottoTimelineEntry.pnl := 20000;
     LottoTimelineEntry.bets :=
       [ {| LottoTimelineBet.number := "12"; LottoTimelineBet.stake := 25000;
            LottoTimelineBet.hit := true; LottoTimelineBet.payout := 100000;
            LottoTimelineBet.rank := Some 1; LottoTimelineBet.probability := Some (4 # 10) |};
         {| LottoTimelineBet.number := "34"; LottoTimelineBet.stake := 25000;
            LottoTimelineBet.hit := false; LottoTimelineBet.payout := 0;
            LottoTimelineBet.rank := Some 2; LottoTimelineBet.probability := Some (3 # 10) |} ];
     LottoTimelineEntry.predictions :=
       [ {| LottoTimelinePrediction.rank := 1; LottoTimelinePrediction.number := "12";
            LottoTimelinePrediction.probability := Some (4 # 10) |};
         {| LottoTimelinePrediction.rank := 2; LottoTimelinePrediction.number := "34";
            LottoTimelinePrediction.probability := Some (3 # 10) |} ];
     LottoTimelineEntry.hits := ["12"];
     LottoTimelineEntry.drawdown := 0;
     LottoTimelineEntry.daily_return := 2 # 100;
     LottoTimelineEntry.capital_halted := false |}.

(** The configuration echoed by [mockBacktestResult]. *)
Definition mock_config : object :=
  [ ("capital", VNum (Fin 1000000));
    ("date_start", VStr "2025-01-01");
    ("date_end", VStr "2025-02-01");
    ("region", VStr "Miền Bắc");
    ("model", VStr "frequency");
    ("top_k", VNum (Fin 5));
    ("digits", VNum (Fin 2));
    ("strategy",
      VObj [ ("type", VStr "fixed");
             ("options", VObj [ ("amount", VNum (Fin 10000)); ("count", VNum (Fin 5)) ]);
             ("plugin_id", VNull);
             ("risk_level", VStr "Thấp") ]);
    ("payout_rules",
      VObj [ ("jackpot_multiplier", VNum (Fin 70));
             ("loss_multiplier", VNum (Fin (-1))) ]);
    ("risk_limits",
      VObj [ ("max_daily_stake_ratio", VNum (Fin (2 # 10)));
             ("max_single_stake_ratio", VNum (Fin (1 # 10))) ]);
    ("lookback_draws", VNum (Fin 120));
    ("seed", VNull) ].

(** [mockBacktestResult], with the stop reason left open. *)
Definition mock_result (stop_reason : string) : LottoBacktestResponse.t :=
  {| LottoBacktestResponse.config := mock_config;
     LottoBacktestResponse.summary := mock_summary stop_reason;
     LottoBacktestResponse.timeline := [mock_timeline_entry];
     LottoBacktestResponse.charts :=
       {| LottoBacktestCharts.capital_curve :=
            [ {| LottoChartPoint.date := "2025-01-01"; LottoChartPoint.value := 1000000 |};
              {| LottoChartPoint.date := "2025-02-01"; LottoChartPoint.value := 1250000 |} ];
          LottoBacktestCharts.accuracy_curve :=
            [ {| LottoChartPoint.date := "2025-01-01"; LottoChartPoint.value := 5 # 10 |};
              {| LottoChartPoint.date := "2025-02-01"; LottoChartPoint.value := 6 # 10 |} ];
          LottoBacktestCharts.profit_curve :=
            [ {| LottoChartPoint.date := "2025-01-01"; LottoChartPoint.value := 20000 |};
              {| LottoChartPoint.date := "2025-02-01"; LottoChartPoint.value := 15000 |} ] |};
     LottoBacktestResponse.logs := [("notes", VStr "Sample run")] |}.

(** The form as the page opens it, with the first region selected and the
    date range of the fixture. *)
Definition default_page : BacktestPro.PageState :=
  {| BacktestPro.capital := Fin 1000000;
     BacktestPro.region := "Miền Bắc";
     BacktestPro.dateStart := "2025-01-01";
     BacktestPro.dateEnd := "2025-02-01";
     BacktestPro.digits := Fin 2;
     BacktestPro.topK := Fin 5;
     BacktestPro.model := "frequency";
     BacktestPro.lookback := Some (Fin 120);
     BacktestPro.seed := None;
     BacktestPro.riskDaily := Fin (2 # 10);
     BacktestPro.riskSingle := Fin (1 # 10);
     BacktestPro.jackpotMultiplier := Fin 70;
     BacktestPro.lossMultiplier := Fin (-1);
     BacktestPro.strategyState :=
       {| BacktestPro.type := "fixed";
          BacktestPro.options := [("amount", Fin 10000); ("count", Fin 5)];
          BacktestPro.plugin_id := None |};
     BacktestPro.result := None;
     BacktestPro.loading := false;
     BacktestPro.error := None |}.



(** Decimal digits of an integer. *)
Definition digits_of (n : Z) : string := NilZero.string_of_int (Z.to_int n).


(** [String(n)] on a number that is whole or not finite. (The fraction of
    any other number is left out.) *)
Definition String_of_number (n : number) : string :=
  match n with
  | NaN => "NaN"
  | PosInf => "Infinity"
  | NegInf => "-Infinity"
  | Fin q => digits_of (Qfloor q)
  end.




(** The form of [default_page] once the plugin strategy is chosen and its
    id typed in. *)
Definition plugin_page : BacktestPro.PageState :=
  {| BacktestPro.capital := BacktestPro.capital default_page;
     BacktestPro.region := BacktestPro.region default_page;
     BacktestPro.dateStart := BacktestPro.dateStart default_page;
     BacktestPro.dateEnd := BacktestPro.dateEnd default_page;
     BacktestPro.digits := BacktestPro.digits default_page;
     BacktestPro.topK := BacktestPro.topK default_page;
     BacktestPro.model := BacktestPro.model default_page;
     BacktestPro.lookback := BacktestPro.lookback default_page;
     BacktestPro.seed := BacktestPro.seed default_page;
     BacktestPro.riskDaily := BacktestPro.riskDaily default_page;
     BacktestPro.riskSingle := BacktestPro.riskSingle default_page;
     BacktestPro.jackpotMultiplier := BacktestPro.jackpotMultiplier default_page;
     BacktestPro.lossMultiplier := BacktestPro.lossMultiplier default_page;
     BacktestPro.strategyState :=
       {| BacktestPro.type := "plugin";
          BacktestPro.options := [];
          BacktestPro.plugin_id := Some "my_strategy" |};
     BacktestPro.result := None;
     BacktestPro.loading := false;
     BacktestPro.error := None |}.

(** A transport that answers every request with the given response. *)
Definition answering (r : LottoBacktestResponse.t)
  : string -> string -> object -> Client.settled LottoBacktestResponse.t :=
  fun _ _ _ => Client.Fulfilled r.

(** Scenario data for the engine: one candidate, number 12 with
    probability 1/2; the fixed strategy; draws whose head is 12 (a hit) or
    34 (a miss). *)
Definition engine_config (capital amount single_ratio : Q) : Engine.BacktestConfig :=
  {| Engine.capital := capital;
     Engine.date_start := 1%Z;
     Engine.date_end := 10%Z;
     Engine.region := "Miền Bắc";
     Engine.model := "frequency";
     Engine.top_k := 1%Z;
     Engine.digits := 2%Z;
     Engine.strategy :=
       {| Engine.type := "fixed";
          Engine.options := [("amount", amount); ("count", 1)];
          Engine.plugin_id := None |};
     Engine.payout_rules :=
       {| Engine.jackpot_multiplier := 70; Engine.loss_multiplier := -1 |};
     Engine.risk_limits :=
       {| Engine.max_daily_stake_ratio := 1;
          Engine.max_single_stake_ratio := single_ratio |};
     Engine.lookback_draws := None;
     Engine.seed := None |}.

Definition score_12 : string -> Engine.Date -> option Z -> Z -> Z -> option Z ->
                      Engine.PredictionSet :=
  fun _ _ _ _ _ _ =>
    [ {| Engine.rank := 1%Z; Engine.number := "12"; Engine.probability := 1 # 2 |} ].

Definition hit_draw (d : Engine.Date) : Engine.DrawRecord :=
  {| Engine.draw_date := d; Engine.prize_numbers := ["48512"; "00712"] |}.

Definition miss_draw (d : Engine.Date) : Engine.DrawRecord :=
  {| Engine.draw_date := d; Engine.prize_numbers := ["10034"] |}.

(** Date, capital at start and end (in lowest terms) and the halted flag of
    the entries of a run. *)
Definition outline (r : list Engine.call * Engine.RunResult)
  : list (Engine.Date * Q * Q * bool) :=
  match snd r with
  | Engine.Ran tl _ | Engine.FailStrategy _ tl =>
      map (fun e => (Engine.date e, Qred (Engine.capital_start e),
                     Qred (Engine.capital_end e), Engine.capital_halted e)) tl
  | _ => []
  end.

Definition ten_days : list Engine.Date := [1; 2; 3; 4; 5; 6; 7; 8; 9; 10]%Z.

Definition engine_run (draws : list Engine.DrawRecord) (c : Engine.BacktestConfig)
  : list Engine.call * Engine.RunResult :=
  Engine.run unit (fun _ _ _ => draws) score_12 Engine.fixed_strategy tt 1 c.

(** A response that carries results of its own, with ranks that do not
    start at 1. *)
Definition results_response : PredictionResponse.t :=
  {| PredictionResponse.algorithm := "markov";
     PredictionResponse.label := "Markov";
     PredictionResponse.timestamp := "2025-02-03T12:00:00Z";
     PredictionResponse.metadata := [];
     PredictionResponse.recommended_heads := ["12"; "34"];
     PredictionResponse.results :=
       [ {| PredictionResult.number := "77"; PredictionResult.probability := 3 # 10;
            PredictionResult.rank := 4%Z; PredictionResult.supporting_metrics := None;
            PredictionResult.explanation := None |} ];
     PredictionResponse.scores :=
       [ {| PredictionScore.number := "12"; PredictionScore.probability := Some (1 # 2) |} ];
     PredictionResponse.notes := None;
     PredictionResponse.related := None |}.

(** Tail and number frequencies as the statistics endpoints return them. *)
Definition tail_frequencies : list TailFrequency.t :=
  [ {| TailFrequency.tail := "12"; TailFrequency.count := 8 |};
    {| TailFrequency.tail := "07"; TailFrequency.count := 2 |};
    {| TailFrequency.tail := "99"; TailFrequency.count := 0 |} ].

Definition number_frequencies : list NumberFrequency.t :=
  [ {| NumberFrequency.number := "48512"; NumberFrequency.count := 3 |};
    {| NumberFrequency.number := "00712"; NumberFrequency.count := 2 |} ].

End Samples.

(* ================================================================== *)
(** * Properties *)
(* ================================================================== *)

Section DigitsControl.
Import Js AlgorithmSelector.

Lemma Qle_bool_false_lt (p q : Q) : Qle_bool p q = false -> (q < p)%Q.
Proof.
  intros H. apply Qnot_le_lt. intros Hle.
  apply Qle_bool_iff in Hle. congruence.
Qed.

(** C6 (as stated, refuted): entering 0 forwards 2, whereas
    min(max(0, 1), 5) is 1. *)
Lemma handleDigitsChange_zero_not_clamped :
  handleDigitsChange (Fin 0) = Fin 2 /\
  Math_min (Math_max (Fin 0) (Fin 1)) (Fin 5) = Fin 1 /\
  handleDigitsChange (Fin 0) <> Math_min (Math_max (Fin 0) (Fin 1)) (Fin 5).
Proof.
  repeat split; try reflexivity. vm_compute. discriminate.
Qed.

(** C6 (amended): the forwarded digit count always lies in [1, 5]. It is 2
    when the entry is not a number or is zero, and min(max(q, 1), 5) for
    every other entered number q. *)
Theorem handleDigitsChange_range (entered : number) :
  exists r : Q,
    handleDigitsChange entered = Fin r /\
    1 <= r /\ r <= 5 /\
    r == match entered with
         | NaN => 2
         | PosInf => 5
         | NegInf => 1
         | Fin q => if is_zero q then 2 else Qmin (Qmax q 1) 5
         end.
Proof.
  destruct entered as [ | | | q]; cbn.
  - exists 2. repeat split; try reflexivity; vm_compute; discriminate.
  - exists 5. repeat split; try reflexivity; vm_compute; discriminate.
  - exists 1. repeat split; try reflexivity; vm_compute; discriminate.
  - unfold handleDigitsChange, or_else, truthy.
    destruct (is_zero q) eqn:Hz; cbn.
    + exists 2. repeat split; try reflexivity; vm_compute; discriminate.
    + destruct (Qle_bool q 1) eqn:H1; cbn.
      * apply Qle_bool_iff in H1.
        exists 1. repeat split; try reflexivity; try (vm_compute; discriminate).
        rewrite (Q.max_r q 1) by assumption.
        rewrite Q.min_l; [reflexivity | vm_compute; discriminate].
      * apply Qle_bool_false_lt in H1.
        destruct (Qle_bool q 5) eqn:H5.
        -- apply Qle_bool_iff in H5. exists q. repeat split; auto using Qlt_le_weak.
           rewrite (Q.max_l q 1) by auto using Qlt_le_weak.
           rewrite Q.min_l; [reflexivity | assumption].
        -- apply Qle_bool_false_lt in H5. exists 5.
           repeat split; try reflexivity; try (vm_compute; discriminate).
           rewrite (Q.max_l q 1) by auto using Qlt_le_weak.
           rewrite Q.min_r; [reflexivity | auto using Qlt_le_weak].
Qed.

(** The top-k handler only replaces a missing or zero entry: a negative
    entry is forwarded as it is. *)
Example handleTopKChange_not_clamped :
  handleTopKChange (Fin (-1)) = Fin (-1) /\ handleTopKChange (Fin 0) = Fin 1 /\
  handleTopKChange NaN = Fin 1.
Proof. repeat split; reflexivity. Qed.

End DigitsControl.

(* ------------------------------------------------------------------ *)
(** ** Guards of the numeric computations *)
(* ------------------------------------------------------------------ *)

Section NumericGuards.
Import Js.

Lemma is_zero_true (q : Q) : is_zero q = true <-> q == 0.
Proof. unfold is_zero. apply Qeq_bool_iff. Qed.

Lemma checked_div_some (a b : Q) :
  is_zero b = false -> checked_div a b = Some (a / b).
Proof. unfold checked_div. intros ->. reflexivity. Qed.

Lemma gt_true (a b : Q) : gt a b = true -> b < a.
Proof.
  unfold gt. intros H. apply negb_true_iff in H. now apply Qle_bool_false_lt.
Qed.

Lemma gt_false (a b : Q) : gt a b = false <-> a <= b.
Proof.
  unfold gt. rewrite negb_false_iff. apply Qle_bool_iff.
Qed.

Lemma getIntensity_total (value max : Q) :
  exists r, TailHeatmap.getIntensity value max = Some r.
Proof.
  unfold TailHeatmap.getIntensity. destruct (is_zero max) eqn:Hz.
  - now exists 0.
  - rewrite checked_div_some by assumption. eauto.
Qed.

Lemma percent_total (count max : Q) :
  exists z, NumberFrequencyList.percent count max = Some z.
Proof.
  unfold NumberFrequencyList.percent. destruct (gt max 0) eqn:Hg.
  - apply gt_true in Hg.
    assert (Hz : is_zero max = false).
    { destruct (is_zero max) eqn:E; [|reflexivity].
      apply is_zero_true in E. rewrite E in Hg. now apply Qlt_irrefl in Hg. }
    rewrite checked_div_some by assumption. cbn. eauto.
  - now exists 0%Z.
Qed.

Lemma uniform_probability_total (heads : list string) :
  exists p, PredictionPanel.uniform_probability heads = Some p.
Proof.
  unfold PredictionPanel.uniform_probability.
  destruct (List.length heads) as [|n] eqn:Hlen; cbn.
  - now exists 0.
  - unfold checked_div.
    replace (is_zero (inject_Z (Z.of_nat (S n)))) with false; [eauto|].
    symmetry. unfold is_zero, Qeq_bool, inject_Z. cbn. reflexivity.
Qed.

Lemma createDisplayResults_total (data : option PredictionResponse.t) (notes : string) :
  exists out, PredictionPanel.createDisplayResults data notes = Some out.
Proof.
  unfold PredictionPanel.createDisplayResults.
  destruct data as [data|]; [|eauto].
  destruct (0 <? _)%nat; [eauto|].
  destruct (0 <? _)%nat; [eauto|].
  destruct (_ =? 0)%nat; [eauto|].
  destruct (uniform_probability_total (PredictionResponse.recommended_heads data)) as [p ->].
  eauto.
Qed.

(** [Math.max(...xs)] is an upper bound of the list and one of its
    elements. *)
Lemma Math_max_of_ge_init (xs : list Q) (x : Q) : x <= Math_max_of x xs.
Proof.
  unfold Math_max_of. revert x. induction xs as [|y ys IH]; intros x; cbn.
  - apply Qle_refl.
  - destruct (Qle_bool x y) eqn:E.
    + apply Qle_bool_iff in E. eapply Qle_trans; [exact E | apply IH].
    + apply IH.
Qed.

Lemma Math_max_of_upper (xs : list Q) (x y : Q) :
  In y (x :: xs) -> y <= Math_max_of x xs.
Proof.
  revert x. induction xs as [|z zs IH]; intros x [Hy | Hy].
  - subst. apply Qle_refl.
  - destruct Hy.
  - subst. apply Math_max_of_ge_init.
  - unfold Math_max_of in *. cbn.
    destruct (Qle_bool x z) eqn:E.
    + apply IH. exact Hy.
    + destruct Hy as [Hy | Hy].
      * subst. apply Qle_bool_false_lt in E.
        eapply Qle_trans; [apply Qlt_le_weak; exact E | apply (Math_max_of_ge_init zs x)].
      * apply IH. now right.
Qed.

Lemma Math_max_of_In (xs : list Q) (x : Q) : In (Math_max_of x xs) (x :: xs).
Proof.
  unfold Math_max_of. revert x. induction xs as [|z zs IH]; intros x; cbn.
  - now left.
  - destruct (Qle_bool x z).
    + right. apply IH.
    + destruct (IH x) as [H | H]; [left; exact H | right; right; exact H].
Qed.

Lemma TailHeatmap_cells (first : TailFrequency.t) (rest : list TailFrequency.t) :
  TailHeatmap.TailHeatmap (first :: rest) =
  TailHeatmap.Cells
    (map (fun item =>
            (TailFrequency.tail item,
             TailHeatmap.getIntensity (TailFrequency.count item)
               (Math_max_of (TailFrequency.count first) (map TailFrequency.count rest))))
         (first :: rest)).
Proof. reflexivity. Qed.

(** C3: the numeric computations of the views never divide by zero, and
    degrade to 0 on empty or zero-valued data: the heat intensity is 0 when
    the maximum count is 0, the bar width is 0 when the maximum count is not
    positive, the uniform fallback probability is 0 for an empty list of
    recommended heads; every cell of the heat map and every row of the
    frequency list gets a value. *)
Theorem numeric_computations_guarded :
  (forall value max, exists r, TailHeatmap.getIntensity value max = Some r) /\
  (forall value max, max == 0 -> TailHeatmap.getIntensity value max = Some 0) /\
  (forall count max, exists z, NumberFrequencyList.percent count max = Some z) /\
  (forall count max, max <= 0 -> NumberFrequencyList.percent count max = Some 0%Z) /\
  (forall heads, exists p, PredictionPanel.uniform_probability heads = Some p) /\
  PredictionPanel.uniform_probability [] = Some 0 /\
  (forall data notes, exists out, PredictionPanel.createDisplayResults data notes = Some out) /\
  (forall data cells,
      TailHeatmap.TailHeatmap data = TailHeatmap.Cells cells ->
      Forall (fun cell => exists r, snd cell = Some r) cells /\
      ((forall item, In item data -> TailFrequency.count item <= 0) ->
       (exists item, In item data /\ TailFrequency.count item == 0) ->
       Forall (fun cell => snd cell = Some 0) cells)) /\
  (forall data rows,
      NumberFrequencyList.NumberFrequencyList data = NumberFrequencyList.Rows rows ->
      Forall (fun row => exists z, snd (fst row) = Some z) rows /\
      ((forall item, In item data -> NumberFrequency.count item <= 0) ->
       Forall (fun row => snd (fst row) = Some 0%Z) rows)) /\
  TailHeatmap.TailHeatmap [] = TailHeatmap.Placeholder /\
  NumberFrequencyList.NumberFrequencyList [] = NumberFrequencyList.Placeholder /\
  (forall data notes,
      PredictionResponse.results data = [] ->
      PredictionResponse.scores data = [] ->
      PredictionResponse.recommended_heads data = [] ->
      PredictionPanel.createDisplayResults (Some data) notes = Some []).
Proof.
  split; [exact getIntensity_total|].
  split.
  { intros value max Hmax. unfold TailHeatmap.getIntensity.
    apply is_zero_true in Hmax. now rewrite Hmax. }
  split; [exact percent_total|].
  split.
  { intros count max Hmax. unfold NumberFrequencyList.percent.
    apply gt_false in Hmax. now rewrite Hmax. }
  split; [exact uniform_probability_total|].
  split; [reflexivity|].
  split; [exact createDisplayResults_total|].
  assert (Hempty : forall data notes,
             PredictionResponse.results data = [] ->
             PredictionResponse.scores data = [] ->
             PredictionResponse.recommended_heads data = [] ->
             PredictionPanel.createDisplayResults (Some data) notes = Some []).
  { intros data notes Hr Hs Hh. unfold PredictionPanel.createDisplayResults.
    now rewrite Hr, Hs, Hh. }
  split; [|split; [|split; [reflexivity | split; [reflexivity | exact Hempty]]]].
  - intros data cells Hview. destruct data as [|first rest]; [discriminate|].
    rewrite TailHeatmap_cells in Hview. injection Hview as <-.
    set (max := Math_max_of _ _).
    split.
    + apply Forall_forall. intros cell [<- | Hin]; [apply getIntensity_total|].
      apply in_map_iff in Hin.
      destruct Hin as [item [<- _]]. cbn. apply getIntensity_total.
    + intros Hnonpos [witness [Hw Hw0]].
      assert (Hmax : max == 0).
      { apply Qle_antisym.
        - destruct (Math_max_of_In (map TailFrequency.count rest) (TailFrequency.count first))
            as [H | H].
          + fold max in H. rewrite <- H. apply Hnonpos. now left.
          + fold max in H. apply in_map_iff in H. destruct H as [item [<- Hin]].
            apply Hnonpos. now right.
        - rewrite <- Hw0. apply Math_max_of_upper.
          destruct Hw as [-> | Hw]; [now left | right; now apply in_map]. }
      apply is_zero_true in Hmax.
      apply Forall_forall. intros cell [<- | Hin].
      { cbn. unfold TailHeatmap.getIntensity. now rewrite Hmax. }
      apply in_map_iff in Hin.
      destruct Hin as [item [<- _]]. cbn. unfold TailHeatmap.getIntensity.
      now rewrite Hmax.
  - intros data rows Hview. destruct data as [|first rest]; [discriminate|].
    cbn [NumberFrequencyList.NumberFrequencyList] in Hview. injection Hview as <-.
    set (max := Math_max_of _ _).
    assert (Hrows : forall (P : option Z -> Prop) (l : list NumberFrequency.t) (i : nat),
               (forall item, In item l -> P (NumberFrequencyList.percent (NumberFrequency.count item) max)) ->
               Forall (fun row : nat * string * option Z * Q => P (snd (fst row)))
                 (mapi_from i (fun item index =>
                    ((index + 1)%nat, NumberFrequency.number item,
                     NumberFrequencyList.percent (NumberFrequency.count item) max,
                     NumberFrequency.count item)) l)).
    { intros P l. induction l as [|x xs IH]; intros i HP; cbn.
      - constructor.
      - constructor; [cbn; apply HP; now left | apply IH; intros; apply HP; now right]. }
    split.
    + apply (Hrows (fun o => exists z, o = Some z)). intros. apply percent_total.
    + intros Hnonpos. apply (Hrows (fun o => o = Some 0%Z)). intros item _.
      assert (Hmax : max <= 0).
      { destruct (Math_max_of_In (map NumberFrequency.count rest) (NumberFrequency.count first))
          as [H | H].
        - fold max in H. rewrite <- H. apply Hnonpos. now left.
        - fold max in H. apply in_map_iff in H. destruct H as [it [<- Hin]].
          apply Hnonpos. now right. }
      unfold NumberFrequencyList.percent. apply gt_false in Hmax. now rewrite Hmax.
Qed.

(** The guards at work: a count of 3 under a maximum of 0. *)
Lemma numeric_computations_guarded_witness :
  TailHeatmap.getIntensity 3 0 = Some 0 /\
  NumberFrequencyList.percent 3 0 = Some 0%Z.
Proof.
  destruct numeric_computations_guarded as (_ & Hintensity & _ & Hpercent & _).
  split.
  - apply Hintensity. reflexivity.
  - apply Hpercent. vm_compute. discriminate.
Defined.

End NumericGuards.

(* ------------------------------------------------------------------ *)
(** ** The prediction grid *)
(* ------------------------------------------------------------------ *)

Section PredictionGrid.
Import Js PredictionPanel.

Lemma mapi_from_length {A B : Type} (f : A -> nat -> B) (l : list A) (i : nat) :
  List.length (mapi_from i f l) = List.length l.
Proof.
  revert i. induction l as [|x xs IH]; intros i; cbn; [reflexivity|].
  now rewrite IH.
Qed.

Lemma mapi_from_nth_error {A B : Type} (f : A -> nat -> B) (l : list A) (i n : nat) (y : B) :
  nth_error (mapi_from i f l) n = Some y ->
  exists x, nth_error l n = Some x /\ y = f x (i + n)%nat.
Proof.
  revert i n. induction l as [|x xs IH]; intros i n H.
  - destruct n; discriminate.
  - destruct n as [|n]; cbn in H.
    + injection H as <-. exists x. split; [reflexivity|]. now rewrite Nat.add_0_r.
    + apply IH in H. destruct H as [x' [Hx ->]]. exists x'. split; [exact Hx|].
      f_equal. lia.
Qed.

Lemma mapi_from_map {A B C : Type} (g : B -> C) (f : A -> nat -> B) (h : nat -> C)
  (l : list A) (i : nat) :
  (forall x n, g (f x n) = h n) ->
  map g (mapi_from i f l) = map h (seq i (List.length l)).
Proof.
  intros Hg. revert i. induction l as [|x xs IH]; intros i; cbn; [reflexivity|].
  now rewrite Hg, IH.
Qed.

Lemma NoDup_ranks (n : nat) :
  NoDup (map (fun i => (Z.of_nat i + 1)%Z) (seq 0 n)).
Proof.
  apply Injective_map_NoDup; [|apply seq_NoDup].
  intros a b Hab. lia.
Qed.

Lemma mapi_from_map_elem {A B C : Type} (g : B -> C) (f : A -> nat -> B) (k : A -> C)
  (l : list A) (i : nat) :
  (forall x n, g (f x n) = k x) ->
  map g (mapi_from i f l) = map k l.
Proof.
  intros Hg. revert i. induction l as [|x xs IH]; intros i; cbn; [reflexivity|].
  now rewrite Hg, IH.
Qed.

(** Rows numbered by [index + 1] carry the ranks 1..n in order. *)
Lemma mapi_ranks {A : Type} (f : A -> nat -> PredictionResult.t) (l : list A) :
  (forall x n, PredictionResult.rank (f x n) = (Z.of_nat n + 1)%Z) ->
  map PredictionResult.rank (mapi f l) =
    map (fun i => (Z.of_nat i + 1)%Z) (seq 0 (List.length (mapi f l))) /\
  (forall i r, nth_error (mapi f l) i = Some r ->
               PredictionResult.rank r = (Z.of_nat i + 1)%Z) /\
  NoDup (map PredictionResult.rank (mapi f l)).
Proof.
  intros Hrank. unfold mapi.
  assert (Hmap : map PredictionResult.rank (mapi_from 0 f l) =
                 map (fun i => (Z.of_nat i + 1)%Z) (seq 0 (List.length l)))
    by now apply mapi_from_map.
  split; [|split].
  - now rewrite mapi_from_length.
  - intros i r H. apply mapi_from_nth_error in H.
    destruct H as [x [_ ->]]. apply Hrank.
  - rewrite Hmap. apply NoDup_ranks.
Qed.

(** C8: when the results list of a response is empty, the display list that
    [createDisplayResults] builds from the scores, or else from the
    recommended heads, gives rank i+1 to the element at index i: the ranks
    are 1..n in list order, without duplicates. *)
Theorem createDisplayResults_ranks (data : PredictionResponse.t) (notes : string) :
  PredictionResponse.results data = [] ->
  exists out,
    createDisplayResults (Some data) notes = Some out /\
    map PredictionResult.number out = ranked_source data /\
    map PredictionResult.rank out =
      map (fun i => (Z.of_nat i + 1)%Z) (seq 0 (List.length out)) /\
    (forall i r, nth_error out i = Some r ->
                 PredictionResult.rank r = (Z.of_nat i + 1)%Z) /\
    NoDup (map PredictionResult.rank out).
Proof.
  intros Hres. unfold createDisplayResults, ranked_source. rewrite Hres. cbn.
  destruct (PredictionResponse.scores data) as [|s0 ss] eqn:Hscores.
  - destruct (PredictionResponse.recommended_heads data) as [|h0 hs] eqn:Hheads.
    + exists []. cbn. repeat split; try reflexivity.
      * intros [|i] r H; discriminate.
      * constructor.
    + cbn [List.length Nat.eqb Nat.ltb Nat.leb].
      destruct (uniform_probability_total (h0 :: hs)) as [p Hp]. rewrite Hp.
      eexists. split; [reflexivity|]. split.
      * unfold mapi. now rewrite mapi_from_map_elem with (k := fun x => x), map_id.
      * now apply mapi_ranks.
  - cbn [List.length Nat.eqb Nat.ltb Nat.leb].
    eexists. split; [reflexivity|]. split.
    + unfold mapi.
      now apply (mapi_from_map_elem PredictionResult.number _ PredictionScore.number).
    + now apply mapi_ranks.
Qed.

(** Three recommended heads and nothing else: ranks 1, 2, 3. *)
Lemma createDisplayResults_ranks_witness :
  exists out,
    createDisplayResults (Some Samples.heads_response) "blurb" = Some out /\
    map PredictionResult.number out = ["12"; "34"; "56"] /\
    map PredictionResult.rank out = [1%Z; 2%Z; 3%Z].
Proof.
  destruct (createDisplayResults_ranks Samples.heads_response "blurb" eq_refl)
    as [out (Hout & Hnum & Hrank & _)].
  exists out. split; [exact Hout|]. split; [exact Hnum|].
  rewrite Hrank. apply (f_equal (@List.length _)) in Hnum.
  rewrite length_map in Hnum. rewrite Hnum. reflexivity.
Defined.

Lemma slice_from_zero {A : Type} (end_ : number) (arr : list A) :
  slice (Fin 0) end_ arr =
  firstn (relative_index (List.length arr) (ToIntegerOrInfinity end_)) arr.
Proof.
  unfold slice. cbn. now rewrite Nat.sub_0_r.
Qed.

Lemma truncate_nonnegative (q : Q) :
  0 <= q -> (0 <= Qnum q ÷ Zpos (Qden q))%Z /\ inject_Z (Qnum q ÷ Zpos (Qden q)) <= q.
Proof.
  intros Hq. destruct q as [n d]. cbn [Qnum Qden].
  assert (Hnum : (0 <= n)%Z).
  { unfold Qle in Hq. cbn in Hq. lia. }
  rewrite Z.quot_div_nonneg by lia. split.
  - apply Z.div_pos; lia.
  - apply (Qfloor_le (n # d)).
Qed.

Lemma slice_at_most {A : Type} (topK : number) (arr : list A) :
  nonnegative topK ->
  count_le (List.length (slice (Fin 0) topK arr)) topK.
Proof.
  intros Hk. rewrite slice_from_zero, length_firstn.
  destruct topK as [ | | | q]; cbn in *; try contradiction; [exact I|].
  destruct (truncate_nonnegative q Hk) as [Hz Hle].
  set (z := (Qnum q ÷ Zpos (Qden q))%Z) in *.
  replace (z <? 0)%Z with false by (symmetry; apply Z.ltb_ge; exact Hz).
  eapply Qle_trans; [|exact Hle].
  rewrite <- Zle_Qle. lia.
Qed.

(** C7 (as stated, refuted): with three display results and top_k = -1,
    [slice(0, -1)] keeps two rows, which is more than top_k. *)
Lemma negative_topK_keeps_rows :
  exists rows,
    PredictionPanel_rows (Some Samples.heads_response) "blurb" (Fin (-1)) = Some rows /\
    List.length rows = 2%nat /\
    ~ count_le (List.length rows) (Fin (-1)).
Proof.
  eexists. split; [reflexivity|]. split; [reflexivity|].
  cbn. intros H. apply Qle_bool_iff in H. discriminate.
Qed.

(** C7 (amended): for every prediction response and every top_k that is
    zero or more, the prediction grid shows at most top_k rows, and they
    are the first rows of the display results. *)
Theorem prediction_rows_at_most_topK
  (data : option PredictionResponse.t) (blurb : string) (topK : number) :
  nonnegative topK ->
  exists results rows,
    createDisplayResults data blurb = Some results /\
    PredictionPanel_rows data blurb topK = Some rows /\
    count_le (List.length rows) topK /\
    rows = firstn (List.length rows) results.
Proof.
  intros Hk. unfold PredictionPanel_rows.
  destruct (createDisplayResults_total data blurb) as [results Hres].
  rewrite Hres. cbn [option_map].
  exists results, (rendered_rows (prediction_grid results topK)).
  split; [reflexivity|]. split; [reflexivity|].
  destruct results as [|r rs].
  - cbn [prediction_grid rendered_rows]. split; [|reflexivity].
    destruct topK; cbn in *; auto.
  - cbn [prediction_grid rendered_rows]. split.
    + now apply slice_at_most.
    + rewrite slice_from_zero. rewrite length_firstn.
      set (n := relative_index _ _).
      destruct (Nat.le_ge_cases n (List.length (r :: rs))) as [Hn | Hn].
      * now rewrite Nat.min_l.
      * rewrite Nat.min_r by exact Hn. rewrite firstn_all.
        now rewrite firstn_all2.
Qed.

(** Three display results under top_k = 2. *)
Lemma prediction_rows_at_most_topK_witness :
  exists results rows,
    createDisplayResults (Some Samples.heads_response) "blurb" = Some results /\
    PredictionPanel_rows (Some Samples.heads_response) "blurb" (Fin 2) = Some rows /\
    count_le (List.length rows) (Fin 2) /\
    rows = firstn (List.length rows) results.
Proof.
  apply (prediction_rows_at_most_topK (Some Samples.heads_response) "blurb" (Fin 2)).
  cbn. apply Qle_bool_iff. reflexivity.
Defined.

End PredictionGrid.

(* ------------------------------------------------------------------ *)
(** ** The state of useAsync *)
(* ------------------------------------------------------------------ *)

Section AsyncInvariant.
Import UseAsync.

Variables T E : Type.

Lemma setState_error_alone (ev : event T E) (prev : AsyncState T E) :
  error_alone (setState ev prev).
Proof.
  destruct ev; unfold error_alone; cbn; intros H.
  - contradiction.
  - contradiction.
  - split; reflexivity.
Qed.

Lemma initial_state_error_alone (options : UseAsyncOptions T) :
  error_alone (@initial_state T E options).
Proof. unfold error_alone. cbn. intros H. contradiction. Qed.

(** The states of the relation are those the updates compute. *)
Lemma reachable_run (options : UseAsyncOptions T) (st : AsyncState T E) :
  reachable options st <-> exists evs, st = run options evs.
Proof.
  split.
  - induction 1 as [|st ev _ [evs ->]].
    + now exists [].
    + exists (evs ++ [ev])%list. unfold run. now rewrite fold_left_app.
  - intros [evs ->]. unfold run.
    induction evs as [|ev evs IH] using rev_ind.
    + constructor.
    + rewrite fold_left_app. cbn. now constructor.
Qed.

End AsyncInvariant.

(** C9: in every state the useAsync hook produces (initial, loading,
    resolved or rejected, in any order of updates) a non-null error implies
    that data is null and loading is false. *)
Theorem useAsync_error_excludes_data (T E : Type)
  (options : UseAsync.UseAsyncOptions T) (st : UseAsync.AsyncState T E) :
  UseAsync.reachable options st ->
  UseAsync.error st <> None ->
  UseAsync.data st = None /\ UseAsync.loading st = false.
Proof.
  intros Hreach. induction Hreach as [|st ev _ _].
  - apply (initial_state_error_alone T E).
  - apply setState_error_alone.
Qed.

(** A load that succeeds, then a reload that fails: the error stands
    alone, the data of the first load is gone. *)
Lemma useAsync_error_excludes_data_witness :
  let options :=
    {| UseAsync.initialData := Some 7%nat; UseAsync.immediate := None |} in
  let st :=
    UseAsync.run options
      [UseAsync.Started; UseAsync.Resolved 9%nat; UseAsync.Started;
       UseAsync.Rejected (Some "timeout")] in
  UseAsync.error st = Some "timeout" /\
  UseAsync.data st = None /\ UseAsync.loading st = false.
Proof.
  intros options st. split; [reflexivity|].
  apply (useAsync_error_excludes_data nat string options st).
  - apply reachable_run. eexists. reflexivity.
  - discriminate.
Defined.

(* ------------------------------------------------------------------ *)
(** ** The payload of runLottoBacktest *)
(* ------------------------------------------------------------------ *)

Section Payload.
Import Js Client.

Lemma get_set_same (k : string) (v : value) (o : object) : get (set k v o) k = v.
Proof.
  unfold get. induction o as [|[k' v'] rest IH]; cbn.
  - now rewrite String.eqb_refl.
  - destruct (String.eqb k k') eqn:E; cbn.
    + now rewrite String.eqb_refl.
    + now rewrite E.
Qed.

Lemma get_set_other (k k' : string) (v : value) (o : object) :
  k' <> k -> get (set k v o) k' = get o k'.
Proof.
  intros Hne. unfold get. induction o as [|[k0 v0] rest IH]; cbn.
  - apply String.eqb_neq in Hne. now rewrite Hne.
  - destruct (String.eqb k k0) eqn:E; cbn.
    + apply String.eqb_eq in E. subst k0.
      apply String.eqb_neq in Hne. now rewrite Hne.
    + destruct (String.eqb k' k0); [reflexivity | exact IH].
Qed.

Lemma nullish_defined (a b : value) : b <> VUndefined -> b <> VNull ->
  nullish a b <> VUndefined /\ nullish a b <> VNull.
Proof.
  intros Hb1 Hb2. destruct a; cbn; split; try discriminate; assumption.
Qed.

Lemma nullish_undefined_id (a : value) : a <> VNull -> nullish a VUndefined = a.
Proof. destruct a; cbn; congruence. Qed.

(** C10: for every request body (with a strategy object, and risk limits
    and payout rules that are objects or left out, as its type says), the
    payload that runLottoBacktest posts has strategy.options equal to the
    given options or {} and never undefined, strategy.plugin_id equal to the
    given id or null and never undefined (so both are written to the JSON),
    the strategy type unchanged, and every other field of the body
    unchanged. *)
Theorem runLottoBacktest_payload (body strategy : object) :
  get body "strategy" = VObj strategy ->
  get body "risk_limits" <> VNull ->
  get body "payout_rules" <> VNull ->
  exists p sp,
    payload body = Some p /\
    (forall request,
        runLottoBacktest request body = request "/backtest/lotto/run" "POST" p) /\
    get p "strategy" = VObj sp /\
    keys sp = ["type"; "options"; "plugin_id"] /\
    get sp "type" = get strategy "type" /\
    get sp "options" =
      match get strategy "options" with
      | VUndefined | VNull => VObj []
      | given => given
      end /\
    get sp "options" <> VUndefined /\
    get sp "plugin_id" =
      match get strategy "plugin_id" with
      | VUndefined | VNull => VNull
      | given => given
      end /\
    get sp "plugin_id" <> VUndefined /\
    keys (json_props sp) =
      (keys (json_props [("type", get strategy "type")]) ++ ["options"; "plugin_id"])%list /\
    (forall k, k <> "strategy" -> get p k = get body k).
Proof.
  intros Hstrategy Hrisk Hpayout.
  unfold runLottoBacktest, payload, strategy_props. rewrite Hstrategy.
  eexists. eexists. split; [reflexivity|]. split; [reflexivity|].
  split.
  { rewrite get_set_other by discriminate. rewrite get_set_other by discriminate.
    apply get_set_same. }
  split; [reflexivity|]. split; [reflexivity|].
  split.
  { transitivity (nullish (get strategy "options") (VObj [])); [reflexivity|].
    destruct (get strategy "options"); reflexivity. }
  split.
  { apply (nullish_defined (get strategy "options") (VObj [])); discriminate. }
  split.
  { transitivity (nullish (get strategy "plugin_id") VNull); [reflexivity|].
    destruct (get strategy "plugin_id"); reflexivity. }
  split.
  { assert (H : forall a, nullish a VNull <> VUndefined)
      by (intros a; destruct a; cbn; discriminate).
    apply (H (get strategy "plugin_id")). }
  split.
  { unfold json_props. cbn [filter snd keys map app].
    assert (Ho : forall a, is_undefined (nullish a (VObj [])) = false)
      by (intros a; destruct a; reflexivity).
    assert (Hi : forall a, is_undefined (nullish a VNull) = false)
      by (intros a; destruct a; reflexivity).
    rewrite Ho, Hi. cbn [negb].
    destruct (negb (is_undefined (get strategy "type"))); reflexivity. }
  intros k Hk.
  destruct (string_dec k "payout_rules") as [-> | Hk1].
  { rewrite get_set_same. now apply nullish_undefined_id. }
  rewrite get_set_other by exact Hk1.
  destruct (string_dec k "risk_limits") as [-> | Hk2].
  { rewrite get_set_same. now apply nullish_undefined_id. }
  rewrite get_set_other by exact Hk2.
  now rewrite get_set_other by exact Hk.
Qed.

(** The body of the default form: the missing plugin id is posted as
    null, the capital as entered. *)
Lemma runLottoBacktest_payload_witness :
  exists p sp,
    payload (BacktestPro.request_body Samples.default_page) = Some p /\
    get p "strategy" = VObj sp /\
    get sp "plugin_id" = VNull /\
    get p "capital" = VNum (Fin 1000000).
Proof.
  destruct (runLottoBacktest_payload
              (BacktestPro.request_body Samples.default_page)
              [ ("type", VStr "fixed");
                ("options", VObj [("amount", VNum (Fin 10000)); ("count", VNum (Fin 5))]);
                ("plugin_id", VUndefined) ])
    as (p & sp & Hp & _ & Hs & _ & _ & _ & _ & Hid & _ & _ & Hother).
  - reflexivity.
  - cbn. discriminate.
  - cbn. discriminate.
  - exists p, sp. split; [exact Hp|]. split; [exact Hs|]. split; [exact Hid|].
    rewrite Hother by discriminate. reflexivity.
Defined.

(** The body the page builds for the default form carries what the test of
    the page expects of the call. *)
Example request_body_matches_test :
  let body := BacktestPro.request_body Samples.default_page in
  get body "capital" = VNum (Fin 1000000) /\
  get body "region" = VStr "Miền Bắc" /\
  get body "model" = VStr "frequency" /\
  get body "top_k" = VNum (Fin 5) /\
  get body "digits" = VNum (Fin 2) /\
  get body "strategy" =
    VObj [ ("type", VStr "fixed");
           ("options", VObj [("amount", VNum (Fin 10000)); ("count", VNum (Fin 5))]);
           ("plugin_id", VUndefined) ] /\
  get body "risk_limits" =
    VObj [ ("max_daily_stake_ratio", VNum (Fin (2 # 10)));
           ("max_single_stake_ratio", VNum (Fin (1 # 10))) ] /\
  get body "payout_rules" =
    VObj [ ("jackpot_multiplier", VNum (Fin 70)); ("loss_multiplier", VNum (Fin (-1))) ].
Proof. repeat split; reflexivity. Qed.

End Payload.

(* ------------------------------------------------------------------ *)
(** ** The Backtest Pro page *)
(* ------------------------------------------------------------------ *)

Section BacktestProPage.
Import Js Client BacktestPro.

Lemma request_body_form_only (s : PageState) (b : bool) (e : option string) :
  request_body (setError e (setLoading b s)) = request_body s.
Proof. reflexivity. Qed.

Lemma eqb_dates_nonempty (s : PageState) :
  dateStart s <> "" -> dateEnd s <> "" ->
  String.eqb (dateStart s) "" || String.eqb (dateEnd s) "" = false.
Proof.
  intros H1 H2. apply String.eqb_neq in H1, H2. now rewrite H1, H2.
Qed.

(** Without a date range [handleRun] sets the form error and sends
    nothing; with one, the body goes to the API as it is. *)
Lemma handleRun_no_dates request (s : PageState) :
  dateStart s = "" \/ dateEnd s = "" ->
  handleRun request s = setError (Some "Vui lòng chọn khoảng thời gian backtest.") s.
Proof.
  intros H. unfold handleRun.
  assert (E : String.eqb (dateStart s) "" || String.eqb (dateEnd s) "" = true).
  { destruct H as [-> | ->]; cbn; [reflexivity | apply orb_true_r]. }
  now rewrite E.
Qed.

(** A response without a strategy in its configuration cannot be shown:
    the render of the page throws on the risk badge. *)
Lemma render_needs_strategy (toLocaleString_vi toFixed2 percent_toFixed2 : Q -> string)
  (s : PageState) (response : LottoBacktestResponse.t) :
  result s = Some response ->
  get (LottoBacktestResponse.config response) "strategy" = VUndefined ->
  render toLocaleString_vi toFixed2 percent_toFixed2 s = None.
Proof.
  intros Hresult Hstrategy. unfold render, riskBadge. now rewrite Hresult, Hstrategy.
Qed.



(** The page itself does not compare the two dates or check capital,
    digits or ratios: a form with the range reversed and a zero capital is
    sent to the API like any other. *)
Example handleRun_forwards_unchecked_form :
  let form :=
    {| capital := Fin 0; region := region Samples.default_page;
       dateStart := "2025-02-01"; dateEnd := "2025-01-01";
       digits := digits Samples.default_page; topK := topK Samples.default_page;
       model := model Samples.default_page; lookback := lookback Samples.default_page;
       seed := seed Samples.default_page; riskDaily := riskDaily Samples.default_page;
       riskSingle := riskSingle Samples.default_page;
       jackpotMultiplier := jackpotMultiplier Samples.default_page;
       lossMultiplier := lossMultiplier Samples.default_page;
       strategyState := strategyState Samples.default_page;
       result := None; loading := false; error := None |} in
  result (handleRun (Samples.answering (Samples.mock_result "completed")) form)
    = Some (Samples.mock_result "completed").
Proof. reflexivity. Qed.

End BacktestProPage.

(* ------------------------------------------------------------------ *)
(** ** The Excel export of App *)
(* ------------------------------------------------------------------ *)

Section ExcelExport.
Import Js Client App.

Variable Date_valueOf : string -> number.
Variable downloadResultsExcel : option string -> option string -> settled string.
Variable formatDateShort : string -> string.

(** The only comparison of a start date with an end date in the front end
    guards the Excel export: a reversed range sets the error feedback and
    nothing is requested or downloaded. *)
Lemma handleDownloadExcel_rejects_reversed_range (s : ExportState) (a b : Q) :
  exportStart s <> "" -> exportEnd s <> "" ->
  Date_valueOf (exportStart s) = Fin a ->
  Date_valueOf (exportEnd s) = Fin b ->
  b < a ->
  handleDownloadExcel Date_valueOf downloadResultsExcel formatDateShort s =
    (setFeedback error "Ngày bắt đầu phải trước hoặc bằng ngày kết thúc." s, []).
Proof.
  intros Hs He Ha Hb Hlt. unfold handleDownloadExcel.
  apply String.eqb_neq in Hs, He. rewrite Hs, He, Ha, Hb. cbn.
  assert (Hgt : gt a b = true).
  { unfold gt. apply negb_true_iff. destruct (Qle_bool a b) eqn:E; [|reflexivity].
    apply Qle_bool_iff in E. exfalso. eapply Qlt_irrefl.
    eapply Qlt_le_trans; [exact Hlt | exact E]. }
  now rewrite Hgt.
Qed.

End ExcelExport.

(* ------------------------------------------------------------------ *)
(** ** The field names of the run response *)
(* ------------------------------------------------------------------ *)

Section ResponseContract.
Import Js Interfaces.

(** The two interfaces declare the names that the contract lists, each
    once, and the fixture of the page test carries them all. *)
Lemma declared_field_names :
  field_names LottoBacktestSummary =
    [ "final_balance"; "total_bets"; "total_wins"; "total_losses"; "win_rate";
      "max_drawdown"; "best_month"; "best_month_pnl"; "sharpe_like"; "accuracy";
      "stop_reason" ] /\
  field_names LottoTimelineEntry =
    [ "date"; "capital_start"; "capital_end"; "stake_total"; "pnl"; "bets";
      "predictions"; "hits"; "drawdown"; "daily_return"; "capital_halted" ] /\
  NoDup (field_names LottoBacktestSummary) /\
  NoDup (field_names LottoTimelineEntry) /\
  keys Samples.mock_summary_object = field_names LottoBacktestSummary /\
  keys Samples.mock_timeline_entry_object = field_names LottoTimelineEntry.
Proof.
  split; [reflexivity|]. split; [reflexivity|].
  split.
  { apply (NoDup_count_occ' string_dec). intros x Hx.
    cbn in Hx. repeat (destruct Hx as [<- | Hx]; [reflexivity|]). destruct Hx. }
  split.
  { apply (NoDup_count_occ' string_dec). intros x Hx.
    cbn in Hx. repeat (destruct Hx as [<- | Hx]; [reflexivity|]). destruct Hx. }
  split; reflexivity.
Qed.







End ResponseContract.

(* ------------------------------------------------------------------ *)
(** ** The backtest engine *)
(* ------------------------------------------------------------------ *)

Section EngineProperties.
Import Engine.

Variable StrategyState : Type.
Variable fetch : string -> Date -> Date -> list DrawRecord.
Variable score : string -> Date -> option Z -> Z -> Z -> option Z -> PredictionSet.
Variable propose :
  StrategyDescriptor -> Q -> PredictionSet -> StrategyState ->
  option (StakeProposal * StrategyState).
Variable initial_strategy_state : StrategyState.
Variable min_viable_stake : Q.

Local Abbreviation EngineState := (EngineState StrategyState).
Local Abbreviation simulate := (simulate StrategyState score propose min_viable_stake).
Local Abbreviation active_day := (active_day StrategyState score propose min_viable_stake).
Local Abbreviation run :=
  (run StrategyState fetch score propose initial_strategy_state min_viable_stake).

Lemma ratio_ok_iff (r : Q) : ratio_ok r = true <-> 0 < r /\ r <= 1.
Proof.
  unfold ratio_ok. rewrite andb_true_iff, negb_true_iff, Qle_bool_iff. split.
  - intros [H1 H2]. split; [now apply Qle_bool_false_lt | exact H2].
  - intros [H1 H2]. split; [|exact H2].
    destruct (Qle_bool r 0) eqn:E; [|reflexivity].
    apply Qle_bool_iff in E. exfalso. eapply Qlt_irrefl.
    eapply Qlt_le_trans; [exact H1 | exact E].
Qed.

(** [validate] refuses exactly the configurations the contract names. *)
Lemma validate_invalid (c : BacktestConfig) :
  invalid_config c <-> exists e, validate c = Some e.
Proof.
  unfold invalid_config, validate. split.
  - intros H.
    destruct (date_end c <? date_start c)%Z eqn:E1; [eauto|].
    destruct (Qle_bool (capital c) 0) eqn:E2; [eauto|].
    destruct ((digits c <? 1) || (5 <? digits c))%Z eqn:E3; [eauto|].
    destruct (ratio_ok (max_daily_stake_ratio (risk_limits c))) eqn:E4; [|cbn; eauto].
    destruct (ratio_ok (max_single_stake_ratio (risk_limits c))) eqn:E5; [|cbn; eauto].
    exfalso. apply Z.ltb_ge in E1. apply orb_false_iff in E3. destruct E3 as [E3 E3'].
    apply Z.ltb_ge in E3, E3'. apply ratio_ok_iff in E4, E5.
    destruct H as [H | [H | [H | [H | [H | H]]]]]; try lia; try contradiction.
    apply Qle_bool_iff in H. congruence.
  - intros [e He].
    destruct (date_end c <? date_start c)%Z eqn:E1.
    { left. now apply Z.ltb_lt. }
    destruct (Qle_bool (capital c) 0) eqn:E2.
    { right. left. now apply Qle_bool_iff. }
    destruct ((digits c <? 1) || (5 <? digits c))%Z eqn:E3.
    { apply orb_true_iff in E3. destruct E3 as [E3 | E3]; apply Z.ltb_lt in E3.
      - right. right. now left.
      - right. right. right. now left. }
    destruct (ratio_ok (max_daily_stake_ratio (risk_limits c))) eqn:E4.
    2:{ do 4 right. left. intros H. apply ratio_ok_iff in H. congruence. }
    destruct (ratio_ok (max_single_stake_ratio (risk_limits c))) eqn:E5.
    2:{ do 5 right. intros H. apply ratio_ok_iff in H. congruence. }
    discriminate.
Qed.

(** C4: run(config) fails with ConfigError, before any call to the draw
    provider, the prediction model or the strategy, whenever date_start >
    date_end, capital <= 0, digits is outside [1,5], or either risk ratio is
    outside (0,1]. *)
Theorem run_rejects_invalid_config (c : BacktestConfig) :
  invalid_config c -> exists e, run c = ([], FailConfig e).
Proof.
  intros H. apply validate_invalid in H. destruct H as [e He].
  exists e. unfold Engine.run. now rewrite He.
Qed.

Lemma active_day_capitals (c : BacktestConfig) (st st1 : EngineState)
  (d : DrawRecord) (entry : TimelineEntry) :
  active_day c st d = Some (entry, st1) ->
  date entry = draw_date d /\
  capital_start entry = current_capital _ st /\
  capital_end entry = current_capital _ st1.
Proof.
  unfold Engine.active_day. intros H.
  destruct (propose _ _ _ _) as [[proposal sst]|]; [|discriminate].
  injection H as <- <-. repeat split.
Qed.

Lemma chained_cons (e : TimelineEntry) (tl : list TimelineEntry) :
  (forall e2, nth_error tl 0 = Some e2 -> capital_start e2 = capital_end e) ->
  chained tl -> chained (e :: tl).
Proof.
  intros Hhead Htail [|i] e1 e2 H1 H2; cbn in H1, H2.
  - injection H1 as <-. now apply Hhead.
  - now apply (Htail i).
Qed.

(** The day loop threads the capital: the first entry starts with the
    capital of the state, and the entries are chained. Without a strategy
    failure there is one entry per draw. *)
Lemma simulate_chained (c : BacktestConfig) (draws : list DrawRecord) :
  forall (st st' : EngineState) calls tl err,
    simulate c st draws = (calls, tl, st', err) ->
    (forall e, nth_error tl 0 = Some e -> capital_start e = current_capital _ st) /\
    chained tl /\
    (err = None -> map date tl = map draw_date draws).
Proof.
  induction draws as [|d rest IH]; intros st st' calls tl err H; cbn in H.
  - injection H as <- <- <- <-. repeat split.
    + intros e He. discriminate.
    + intros [|i] e1 e2 H1; discriminate.
  - destruct (halted _ st) eqn:Hhalt.
    + destruct (simulate c st rest) as [[[calls0 tl0] st0] err0] eqn:Hrest.
      injection H as <- <- <- <-.
      destruct (IH _ _ _ _ _ Hrest) as (Hfirst & Hchain & Hdates).
      split; [|split].
      * intros e He. cbn in He. now injection He as <-.
      * apply chained_cons; [|exact Hchain]. intros e2 He2. now apply Hfirst.
      * intros Herr. cbn. now rewrite Hdates.
    + destruct (active_day c st d) as [[entry st1]|] eqn:Hday.
      * destruct (simulate c st1 rest) as [[[calls0 tl0] st0] err0] eqn:Hrest.
        injection H as <- <- <- <-.
        destruct (active_day_capitals _ _ _ _ _ Hday) as (Hdate & Hstart & Hend).
        destruct (IH _ _ _ _ _ Hrest) as (Hfirst & Hchain & Hdates).
        split; [|split].
        -- intros e He. cbn in He. now injection He as <-.
        -- apply chained_cons; [|exact Hchain]. intros e2 He2.
           rewrite Hend. now apply Hfirst.
        -- intros Herr. cbn. now rewrite Hdate, Hdates.
      * injection H as <- <- <- <-. repeat split.
        -- intros e He. discriminate.
        -- intros [|i] e1 e2 H1; discriminate.
        -- discriminate.
Qed.

(** A valid run with draws is the day loop from the initial state. *)
Lemma run_valid (c : BacktestConfig) :
  validate c = None ->
  fetch (region c) (date_start c) (date_end c) <> [] ->
  run c =
    let '(calls, tl, st, err) :=
      simulate c (initial_state _ initial_strategy_state c)
        (fetch (region c) (date_start c) (date_end c)) in
    (Fetch :: calls,
     match err with
     | Some d => FailStrategy d tl
     | None => Ran tl (if halted _ st then capital_depleted else completed)
     end).
Proof.
  intros Hvalid Hdraws. unfold Engine.run. rewrite Hvalid.
  destruct (fetch (region c) (date_start c) (date_end c)); [contradiction | reflexivity].
Qed.

(** C1: for every valid run (a configuration that passes validation and a
    provider that has draws for it) the engine returns a timeline, complete
    or cut at a strategy failure, whose first entry starts with
    config.capital and in which every entry starts with the capital the
    previous entry ended with; days without a draw have no entry. *)
Theorem capital_chain (c : BacktestConfig) :
  validate c = None ->
  fetch (region c) (date_start c) (date_end c) <> [] ->
  exists calls tl,
    ((exists reason,
         run c = (calls, Ran tl reason) /\
         map date tl = map draw_date (fetch (region c) (date_start c) (date_end c))) \/
     (exists d, run c = (calls, FailStrategy d tl))) /\
    (forall e, nth_error tl 0 = Some e -> capital_start e = capital c) /\
    chained tl.
Proof.
  intros Hvalid Hdraws. rewrite (run_valid c Hvalid Hdraws).
  destruct (simulate c (initial_state _ initial_strategy_state c)
              (fetch (region c) (date_start c) (date_end c)))
    as [[[calls tl] st] err] eqn:Hsim.
  destruct (simulate_chained _ _ _ _ _ _ _ Hsim) as (Hfirst & Hchain & Hdates).
  exists (Fetch :: calls), tl. split; [|split].
  - destruct err as [d|].
    + right. now exists d.
    + left. eexists. split; [reflexivity | now apply Hdates].
  - exact Hfirst.
  - exact Hchain.
Qed.

End EngineProperties.

Section EngineScenarios.
Import Engine Samples.

(** A configuration with capital 0 is refused before the draws are
    fetched. *)
Lemma run_rejects_invalid_config_witness :
  exists e, engine_run (map miss_draw ten_days) (engine_config 0 100 1) = ([], FailConfig e).
Proof.
  apply (run_rejects_invalid_config unit (fun _ _ _ => map miss_draw ten_days)
           score_12 fixed_strategy tt 1 (engine_config 0 100 1)).
  right. left. cbn. apply Qle_bool_iff. reflexivity.
Defined.

(** Two days, a hit then a miss, from a capital of 1,000,000. *)
Lemma capital_chain_witness :
  let c := engine_config 1000000 100000 (1 # 10) in
  let draws := [hit_draw 1%Z; miss_draw 2%Z] in
  exists calls tl,
    ((exists reason,
         engine_run draws c = (calls, Ran tl reason) /\
         map date tl = map draw_date draws) \/
     (exists d, engine_run draws c = (calls, FailStrategy d tl))) /\
    (forall e, nth_error tl 0 = Some e -> capital_start e = capital c) /\
    chained tl.
Proof.
  intros c draws.
  apply (capital_chain unit (fun _ _ _ => draws) score_12 fixed_strategy tt 1 c).
  - reflexivity.
  - discriminate.
Defined.

(** Scenario A of the contract: a hit at multiplier 70 turns 1,000,000 into
    7,900,000. Scenario B: a miss leaves 900,000. *)
Example scenario_hit_and_miss :
  outline (engine_run [hit_draw 1%Z] (engine_config 1000000 100000 (1 # 10)))
    = [(1%Z, 1000000, 7900000, false)] /\
  outline (engine_run [miss_draw 1%Z] (engine_config 1000000 100000 (1 # 10)))
    = [(1%Z, 1000000, 900000, false)].
Proof. split; vm_compute; reflexivity. Qed.

(** Scenario C: with capital 100,000 and a single-stake ratio of 0.1 a
    requested stake of 50,000 is clamped to 10,000. *)
Example scenario_clamp :
  map (fun ns => (fst ns, Qred (snd ns)))
      (clamp 100000 [("12", 50000)]
         {| max_daily_stake_ratio := 1; max_single_stake_ratio := 1 # 10 |})
  = [("12", 10000)].
Proof. vm_compute. reflexivity. Qed.

(** Scenario D: capital reaches 0 on day 3 of 10; the timeline has ten
    entries, entries 3 to 10 are halted at capital 0, and the run stops for
    depleted capital after calling model and strategy on three days only. *)
Example scenario_depletion :
  let r := engine_run (map miss_draw ten_days) (engine_config 300 100 1) in
  outline r =
    [ (1%Z, 300, 200, false); (2%Z, 200, 100, false); (3%Z, 100, 0, true);
      (4%Z, 0, 0, true); (5%Z, 0, 0, true); (6%Z, 0, 0, true); (7%Z, 0, 0, true);
      (8%Z, 0, 0, true); (9%Z, 0, 0, true); (10%Z, 0, 0, true) ] /\
  (exists tl, snd r = Ran tl capital_depleted) /\
  fst r = [ Fetch; Score 1%Z; Propose 1%Z; Score 2%Z; Propose 2%Z;
            Score 3%Z; Propose 3%Z ].
Proof.
  split; [vm_compute; reflexivity|]. split; [|vm_compute; reflexivity].
  eexists. vm_compute. reflexivity.
Qed.

End EngineScenarios.

(* ------------------------------------------------------------------ *)
(** ** The prediction controls of App *)
(* ------------------------------------------------------------------ *)

Section Controls.
Import Js AlgorithmSelector AppControls.

(** Clamping any number but NaN between two finite bounds gives a finite
    number between them. *)
Lemma clamp_between (n : number) (lo hi : Q) :
  lo <= hi -> n <> NaN ->
  exists r, Math_min (Math_max n (Fin lo)) (Fin hi) = Fin r /\ lo <= r /\ r <= hi.
Proof.
  intros Hbounds Hn. destruct n as [ | | | q]; [contradiction | | |]; cbn.
  - exists hi. repeat split; [exact Hbounds | apply Qle_refl].
  - destruct (Qle_bool lo hi) eqn:E.
    + exists lo. repeat split; [apply Qle_refl | exact Hbounds].
    + apply Qle_bool_iff in Hbounds. congruence.
  - destruct (Qle_bool q lo) eqn:E1; cbn.
    + destruct (Qle_bool lo hi) eqn:E2.
      * exists lo. repeat split; [apply Qle_refl | exact Hbounds].
      * apply Qle_bool_iff in Hbounds. congruence.
    + apply Qle_bool_false_lt in E1. destruct (Qle_bool q hi) eqn:E2.
      * apply Qle_bool_iff in E2. exists q. repeat split; [now apply Qlt_le_weak | exact E2].
      * exists hi. repeat split; [exact Hbounds | apply Qle_refl].
Qed.

Lemma or_else_not_NaN (a b : number) : b <> NaN -> or_else a b <> NaN.
Proof.
  intros Hb. unfold or_else. destruct a; cbn; try discriminate; try exact Hb.
  destruct (is_zero q); cbn; [exact Hb | discriminate].
Qed.

Lemma or_else_truthy (a b : number) : truthy b = true -> truthy (or_else a b) = true.
Proof.
  intros Hb. unfold or_else. destruct (truthy a) eqn:E; assumption.
Qed.

Lemma handleLookbackChange_at_least_10 (entered : number) :
  handleLookbackChange entered = PosInf \/
  exists l, handleLookbackChange entered = Fin l /\ 10 <= l.
Proof.
  unfold handleLookbackChange.
  assert (H : or_else entered (Fin 30) <> NaN) by (apply or_else_not_NaN; discriminate).
  destruct (or_else entered (Fin 30)) as [ | | | q]; [contradiction | now left | |]; cbn.
  - right. exists 10. split; [reflexivity | apply Qle_refl].
  - right. destruct (Qle_bool q 10) eqn:E.
    + exists 10. split; [reflexivity | apply Qle_refl].
    + exists q. split; [reflexivity|]. apply Qlt_le_weak. now apply Qle_bool_false_lt.
Qed.

Lemma step_settings_in_range (c : Controls) (a : action) :
  settings_in_range c -> settings_in_range (step c a).
Proof.
  intros (Hd & Hk & Hl & Hw). unfold settings_in_range.
  destruct a as [v | n | n | n | b | n];
    [unfold step; destruct (selectable c v) | | | | |];
    cbn [step handleAdvancedToggle algorithm topK digits lookback advancedMode
         backtestWindow];
    (split; [|split; [|split]]); try assumption.
  - unfold handleTopKChange. now apply or_else_truthy.
  - unfold handleDigitsChange.
    apply clamp_between; [vm_compute; discriminate|].
    apply or_else_not_NaN. discriminate.
  - apply handleLookbackChange_at_least_10.
  - unfold PredictionPanel.handleBacktestWindowChange.
    apply clamp_between; [vm_compute; discriminate|].
    apply or_else_not_NaN. destruct Hw as [w [-> _]]. discriminate.
Qed.

(** X1: whatever is typed into the controls of the dashboard, in any
    order, the settings that go into the prediction and backtest requests
    stay in range: digits in [1,5], top-k neither 0 nor NaN, the lookback
    window at least 10, the backtest window in [5,200]. *)
Theorem controls_stay_in_range (actions : list action) :
  settings_in_range (after actions).
Proof.
  unfold after. induction actions as [|a actions IH] using rev_ind.
  - cbn. unfold settings_in_range. cbn. split; [|split; [|split]].
    + exists 2. repeat split; vm_compute; discriminate.
    + reflexivity.
    + right. exists 120. split; [reflexivity | vm_compute; discriminate].
    + exists 30. repeat split; vm_compute; discriminate.
  - rewrite fold_left_app. cbn. now apply step_settings_in_range.
Qed.

Lemma existsb_eqb_In (x : string) (l : list string) :
  existsb (String.eqb x) l = true <-> In x l.
Proof.
  rewrite existsb_exists. split.
  - intros [y [Hy E]]. apply String.eqb_eq in E. now subst.
  - intros H. exists x. split; [exact H | apply String.eqb_refl].
Qed.

Lemma distinct_In (x : string) (xs seen : list string) :
  In x (distinct seen xs) <-> In x xs /\ ~ In x seen.
Proof.
  revert seen. induction xs as [|y ys IH]; intros seen; cbn.
  - tauto.
  - destruct (existsb (String.eqb y) seen) eqn:E.
    + apply existsb_eqb_In in E. rewrite IH. split.
      * intros [H1 H2]. tauto.
      * intros [[-> | H1] H2]; [contradiction | tauto].
    + assert (Hy : ~ In y seen).
      { intros H. apply existsb_eqb_In in H. congruence. }
      cbn. rewrite IH. cbn. split.
      * intros [-> | [H1 H2]]; [tauto|]. split; [now right | tauto].
      * intros [[-> | H1] H2]; [now left|].
        destruct (string_dec y x) as [-> | Hne]; [now left | right; tauto].
Qed.

Lemma distinct_NoDup (xs seen : list string) : NoDup (distinct seen xs).
Proof.
  revert seen. induction xs as [|y ys IH]; intros seen; cbn.
  - constructor.
  - destruct (existsb (String.eqb y) seen); [apply IH|].
    constructor; [|apply IH]. rewrite distinct_In. cbn. tauto.
Qed.

Lemma filter_none {A : Type} (l : list A) : filter (fun _ => false) l = [].
Proof. induction l; cbn; auto. Qed.

(** The groups of distinct categories split the catalogue. *)
Lemma groups_split (l : list AlgorithmDescriptor) (cs : list string) :
  NoDup cs ->
  Permutation
    (flat_map (fun c => filter (fun item => String.eqb (category item) c) l) cs)
    (filter (fun item => existsb (String.eqb (category item)) cs) l).
Proof.
  induction 1 as [|c cs Hc Hnodup IH]; cbn.
  - now rewrite filter_none.
  - etransitivity; [apply Permutation_app_head; exact IH|].
    clear IH. induction l as [|x l IHl]; cbn; [constructor|].
    destruct (String.eqb (category x) c) eqn:E; cbn.
    + apply String.eqb_eq in E.
      destruct (existsb (String.eqb (category x)) cs) eqn:E2.
      * apply existsb_eqb_In in E2. rewrite E in E2. contradiction.
      * now constructor.
    + destruct (existsb (String.eqb (category x)) cs); [|exact IHl].
      etransitivity; [symmetry; apply Permutation_middle|]. now constructor.
Qed.

Lemma render_options_map (l : list AlgorithmDescriptor) (mode : bool) :
  render_options l mode =
  map (render_option mode)
      (flat_map (fun c => filter (fun item => String.eqb (category item) c) l)
                (categories_of l)).
Proof.
  unfold render_options, render_groups.
  induction (categories_of l) as [|c cs IH]; cbn; [reflexivity|].
  now rewrite map_app, IH.
Qed.

(** X2: for every catalogue of algorithms the select shows each algorithm
    exactly once, whatever the categories are: its options are a
    rearrangement (by category) of the rendered catalogue. *)
Theorem select_lists_every_algorithm_once (l : list AlgorithmDescriptor) (mode : bool) :
  Permutation (render_options l mode) (map (render_option mode) l) /\
  Permutation (map option_value (render_options l mode)) (map value l).
Proof.
  assert (H : Permutation (render_options l mode) (map (render_option mode) l)).
  { rewrite render_options_map. apply Permutation_map.
    etransitivity; [apply groups_split, distinct_NoDup|].
    replace (filter _ l) with l; [reflexivity|].
    symmetry. apply forallb_filter_id. apply forallb_forall. intros x Hx.
    apply existsb_eqb_In. unfold categories_of. apply distinct_In.
    split; [now apply in_map | intros []]. }
  split; [exact H|].
  apply (Permutation_map option_value) in H. now rewrite map_map in H.
Qed.

Lemma selectable_mode (c c' : Controls) (v : string) :
  advancedMode c = advancedMode c' -> selectable c v = selectable c' v.
Proof. unfold selectable. now intros ->. Qed.

(** An option can be chosen iff it is in the catalogue and, with the
    advanced mode off, not one of the advanced algorithms of [App]. *)
Lemma selectable_spec (c : Controls) (v : string) :
  selectable c v = true <->
  In v (map value ALGORITHMS) /\
  (advancedMode c = false -> existsb (String.eqb v) advancedSet = false).
Proof.
  unfold selectable. destruct (advancedMode c); split.
  - intros H. apply existsb_exists in H. destruct H as [o [Hin Ho]].
    vm_compute in Hin.
    repeat (destruct Hin as [<- | Hin];
            [apply andb_true_iff in Ho; destruct Ho as [Ho _];
             apply String.eqb_eq in Ho; subst v;
             split; [vm_compute; tauto | discriminate]|]).
    destruct Hin.
  - intros [Hin _]. cbn in Hin.
    repeat (destruct Hin as [<- | Hin]; [vm_compute; reflexivity|]). destruct Hin.
  - intros H. apply existsb_exists in H. destruct H as [o [Hin Ho]].
    vm_compute in Hin.
    repeat (destruct Hin as [<- | Hin];
            [apply andb_true_iff in Ho; destruct Ho as [Ho Hd];
             first [discriminate Hd
                   | apply String.eqb_eq in Ho; subst v;
                     split; [vm_compute; tauto | intros _; vm_compute; reflexivity]]|]).
    destruct Hin.
  - intros [Hin Hset]. specialize (Hset eq_refl). cbn in Hin.
    repeat (destruct Hin as [<- | Hin];
            [first [vm_compute; reflexivity | vm_compute in Hset; discriminate Hset]|]).
    destruct Hin.
Qed.

Lemma step_selectable (c : Controls) (a : action) :
  selectable c (algorithm c) = true ->
  selectable (step c a) (algorithm (step c a)) = true.
Proof.
  intros H. destruct a as [v | n | n | n | b | n];
    try (rewrite <- H; apply selectable_mode; reflexivity).
  - unfold step. destruct (selectable c v) eqn:E; [|exact H].
    cbn [algorithm]. rewrite <- E. apply selectable_mode. reflexivity.
  - apply selectable_spec in H. destruct H as [Hin _].
    cbn [step]. unfold handleAdvancedToggle. apply selectable_spec.
    cbn [algorithm advancedMode]. destruct b.
    + split; [exact Hin | discriminate].
    + destruct (existsb (String.eqb (algorithm c)) advancedSet) eqn:E.
      * split; [vm_compute; tauto | reflexivity].
      * split; [exact Hin | intros _; exact E].
Qed.

Lemma after_selectable (actions : list action) :
  selectable (after actions) (algorithm (after actions)) = true.
Proof.
  unfold after. induction actions as [|a actions IH] using rev_ind.
  - vm_compute. reflexivity.
  - rewrite fold_left_app. cbn [fold_left]. now apply step_selectable.
Qed.

(** X3: the algorithm that is selected is always an option of the select
    that is not disabled: switching the advanced mode off moves the
    selection from an advanced algorithm back to frequency, and the set
    [App] checks agrees with the advanced flags of the catalogue. *)
Theorem selected_algorithm_is_enabled (actions : list action) :
  let c := after actions in
  selectable c (algorithm c) = true.
Proof. apply after_selectable. Qed.

(** X22: the prediction request and the backtest request of the dashboard
    always carry the current controls, each as one parameter and in a
    fixed order: the algorithm is never left out, the advanced flag is sent
    also when it is false, and no prize tier, seed or end date is sent. *)
Theorem requests_carry_the_controls (API_BASE_URL : string)
  (String_of_number : number -> string) (actions : list action) :
  let c := after actions in
  Client.searchParams (predictions_url API_BASE_URL String_of_number c) =
    [ ("algorithm", algorithm c);
      ("top_k", String_of_number (topK c));
      ("digits", String_of_number (digits c));
      ("lookback_draws", String_of_number (lookback c));
      ("advanced", if advancedMode c then "true" else "false") ] /\
  Client.searchParams (backtest_url API_BASE_URL String_of_number c) =
    [ ("algorithm", algorithm c);
      ("top_k", String_of_number (topK c));
      ("digits", String_of_number (digits c));
      ("lookback_draws", String_of_number (lookback c));
      ("evaluation_draws", String_of_number (backtestWindow c)) ].
Proof.
  intros c.
  assert (Hne : String.eqb (algorithm c) "" = false).
  { pose proof (after_selectable actions) as H. apply selectable_spec in H.
    destruct H as [Hin _]. fold c in Hin. cbn in Hin.
    repeat (destruct Hin as [<- | Hin]; [reflexivity|]). destruct Hin. }
  unfold predictions_url, backtest_url, Client.getPredictions_url,
    Client.getBacktestHeads_url, Client.buildUrl.
  cbn [Client.searchParams Client.po_algorithm Client.po_top_k Client.po_digits
       Client.po_lookback_draws Client.po_prize_tiers Client.po_advanced Client.po_seed
       Client.bo_algorithm Client.bo_top_k Client.bo_digits Client.bo_lookback_draws
       Client.bo_evaluation_draws Client.bo_end_date Client.optional fold_left fst snd
       Client.skipped].
  rewrite Hne. destruct (advancedMode c); split; reflexivity.
Qed.

End Controls.

(* ------------------------------------------------------------------ *)
(** ** What the prediction panel shows *)
(* ------------------------------------------------------------------ *)

Section PanelDisplay.
Import Js PredictionPanel.

(** X4: the backtest preview shows the last five draws of the timeline
    (all of them when there are fewer), the newest first. *)
Theorem previewTimeline_last_five {A : Type} (backtestTimeline : list A) :
  previewTimeline backtestTimeline = firstn 5 (rev backtestTimeline) /\
  List.length (previewTimeline backtestTimeline) = Nat.min 5 (List.length backtestTimeline).
Proof.
  assert (H : previewTimeline backtestTimeline = firstn 5 (rev backtestTimeline)).
  { unfold previewTimeline, slice_from. cbn [ToIntegerOrInfinity relative_index].
    change (Qnum (-5) ÷ Zpos (Qden (-5)))%Z with (-5)%Z. cbn [Z.ltb Z.compare].
    rewrite firstn_rev. f_equal. f_equal. lia. }
  split; [exact H|]. rewrite H, length_firstn, length_rev. reflexivity.
Qed.

(** X6: the probability bar of a row is never narrower than 6 percent nor
    wider than 100 percent, whatever probability the server sends. *)
Theorem bar_width_between_6_and_100 (probability : Q) :
  exists w, bar_width probability = Fin w /\ 6 <= w /\ w <= 100.
Proof.
  unfold bar_width. apply clamp_between; [vm_compute|]; discriminate.
Qed.

Lemma rebuild_result (items : list PredictionResult.t) :
  map (fun item =>
         {| PredictionResult.number := PredictionResult.number item;
            PredictionResult.probability := PredictionResult.probability item;
            PredictionResult.rank := PredictionResult.rank item;
            PredictionResult.supporting_metrics := PredictionResult.supporting_metrics item;
            PredictionResult.explanation := PredictionResult.explanation item |}) items
  = items.
Proof.
  induction items as [|[n p r m e] items IH]; cbn; [reflexivity|]. now rewrite IH.
Qed.

(** X7: when the response carries results, they are shown as they come,
    with the ranks and probabilities of the server; scores and recommended
    heads are not looked at. *)
Theorem createDisplayResults_prefers_results
  (data : PredictionResponse.t) (notes : string) :
  PredictionResponse.results data <> [] ->
  createDisplayResults (Some data) notes = Some (PredictionResponse.results data).
Proof.
  intros Hne. unfold createDisplayResults.
  destruct (PredictionResponse.results data) as [|r rs] eqn:E; [contradiction|].
  cbn [List.length Nat.ltb Nat.leb]. now rewrite rebuild_result.
Qed.

(** One result of the server, ranked 4: it is shown with rank 4. *)
Lemma createDisplayResults_prefers_results_witness :
  createDisplayResults (Some Samples.results_response) "blurb" =
    Some (PredictionResponse.results Samples.results_response).
Proof.
  apply (createDisplayResults_prefers_results Samples.results_response "blurb").
  discriminate.
Defined.

(** With results empty the display list is numbered from 1. *)
Lemma createDisplayResults_numbered (data : PredictionResponse.t) (notes : string) :
  PredictionResponse.results data = [] ->
  exists out,
    createDisplayResults (Some data) notes = Some out /\
    map PredictionResult.rank out =
      map (fun i => (Z.of_nat i + 1)%Z) (seq 0 (List.length out)).
Proof.
  intros Hres. unfold createDisplayResults. rewrite Hres. cbn.
  destruct (PredictionResponse.scores data) as [|s0 ss].
  - destruct (PredictionResponse.recommended_heads data) as [|h0 hs].
    + exists []. split; reflexivity.
    + cbn [List.length Nat.eqb Nat.ltb Nat.leb].
      destruct (uniform_probability_total (h0 :: hs)) as [p ->].
      eexists. split; [reflexivity|]. now apply mapi_ranks.
  - cbn [List.length Nat.eqb Nat.ltb Nat.leb].
    eexists. split; [reflexivity|]. now apply mapi_ranks.
Qed.

Lemma firstn_seq (n start len : nat) :
  firstn n (seq start len) = seq start (Nat.min n len).
Proof.
  revert start len. induction n as [|n IH]; intros start [|len]; cbn; try reflexivity.
  now rewrite IH.
Qed.

(** X8: when the display list is built from scores or recommended heads
    and top_k is zero or more, the rows of the grid carry the ranks
    1, 2, ..., k without a gap, k being the number of rows shown. *)
Theorem grid_ranks_contiguous
  (data : PredictionResponse.t) (blurb : string) (topK : number) :
  PredictionResponse.results data = [] ->
  nonnegative topK ->
  exists rows,
    PredictionPanel_rows (Some data) blurb topK = Some rows /\
    map PredictionResult.rank rows =
      map (fun i => (Z.of_nat i + 1)%Z) (seq 0 (List.length rows)).
Proof.
  intros Hres Hk.
  destruct (createDisplayResults_numbered data blurb Hres) as [out [Hout Hranks]].
  unfold PredictionPanel_rows. rewrite Hout. cbn [option_map].
  eexists. split; [reflexivity|].
  destruct out as [|r rs]; [reflexivity|].
  cbn [prediction_grid rendered_rows]. rewrite slice_from_zero.
  set (n := relative_index _ _).
  rewrite <- firstn_map, Hranks, firstn_map, firstn_seq, length_firstn.
  reflexivity.
Qed.

(** Three recommended heads under top_k = 2: ranks 1 and 2. *)
Lemma grid_ranks_contiguous_witness :
  exists rows,
    PredictionPanel_rows (Some Samples.heads_response) "blurb" (Fin 2) = Some rows /\
    map PredictionResult.rank rows =
      map (fun i => (Z.of_nat i + 1)%Z) (seq 0 (List.length rows)).
Proof.
  apply (grid_ranks_contiguous Samples.heads_response "blurb" (Fin 2)).
  - reflexivity.
  - cbn. apply Qle_bool_iff. reflexivity.
Defined.

End PanelDisplay.

(* ------------------------------------------------------------------ *)
(** ** The scales of the frequency views *)
(* ------------------------------------------------------------------ *)

Section FrequencyScales.
Import Js.

Lemma ratio_between_0_and_1 (v m : Q) : 0 <= v -> v <= m -> 0 < m -> 0 <= v / m /\ v / m <= 1.
Proof.
  intros Hv Hvm Hm. split.
  - apply Qle_shift_div_l; [exact Hm|]. now rewrite Qmult_0_l.
  - apply Qle_shift_div_r; [exact Hm|]. now rewrite Qmult_1_l.
Qed.

Lemma is_zero_false_pos (m : Q) : 0 <= m -> is_zero m = false -> 0 < m.
Proof.
  intros Hm Hz. apply Qle_lteq in Hm. destruct Hm as [Hm | Hm]; [exact Hm|].
  symmetry in Hm. apply is_zero_true in Hm. congruence.
Qed.

Lemma getIntensity_between (value max : Q) :
  0 <= value -> value <= max ->
  exists r, TailHeatmap.getIntensity value max = Some r /\ 0 <= r /\ r <= 1.
Proof.
  intros Hv Hvm. unfold TailHeatmap.getIntensity.
  destruct (is_zero max) eqn:Hz.
  - exists 0. repeat split; vm_compute; discriminate.
  - rewrite checked_div_some by exact Hz. eexists. split; [reflexivity|].
    apply ratio_between_0_and_1; try assumption.
    apply is_zero_false_pos; [eapply Qle_trans; eassumption | exact Hz].
Qed.

(** X9: when no count is negative, every cell of the tail heat map has an
    intensity between 0 and 1, and unless all counts are zero the cell of
    the highest count has intensity 1. *)
Theorem heat_intensity_between_0_and_1 (data : list TailFrequency.t)
  (cells : list (string * option Q)) :
  (forall item, In item data -> 0 <= TailFrequency.count item) ->
  TailHeatmap.TailHeatmap data = TailHeatmap.Cells cells ->
  Forall (fun cell => exists r, snd cell = Some r /\ 0 <= r /\ r <= 1) cells /\
  ((exists item, In item data /\ 0 < TailFrequency.count item) ->
   exists cell r, In cell cells /\ snd cell = Some r /\ r == 1).
Proof.
  intros Hnonneg Hview. destruct data as [|first rest]; [discriminate|].
  rewrite TailHeatmap_cells in Hview.
  set (max := Math_max_of _ _) in Hview.
  assert (Hcells : cells =
            map (fun item => (TailFrequency.tail item,
                              TailHeatmap.getIntensity (TailFrequency.count item) max))
                (first :: rest)) by congruence.
  clear Hview.
  assert (Hupper : forall item, In item (first :: rest) -> TailFrequency.count item <= max).
  { intros item Hin. apply Math_max_of_upper.
    change (In (TailFrequency.count item) (map TailFrequency.count (first :: rest))).
    now apply in_map. }
  split.
  - rewrite Hcells. apply Forall_forall. intros cell Hin. apply in_map_iff in Hin.
    destruct Hin as [item [<- Hin]]. cbn [snd].
    apply getIntensity_between; [now apply Hnonneg | now apply Hupper].
  - intros [hot [Hhot Hpos]].
    assert (Hmax : In max (map TailFrequency.count (first :: rest)))
      by apply Math_max_of_In.
    apply in_map_iff in Hmax. destruct Hmax as [top [Htop Hin]].
    assert (Hmaxpos : 0 < max).
    { eapply Qlt_le_trans; [exact Hpos | now apply Hupper]. }
    exists (TailFrequency.tail top, TailHeatmap.getIntensity (TailFrequency.count top) max).
    exists (max / max). split; [|split].
    + rewrite Hcells. apply in_map_iff. exists top. split; [reflexivity | exact Hin].
    + cbn [snd]. rewrite Htop. unfold TailHeatmap.getIntensity.
      destruct (is_zero max) eqn:Hz.
      * apply is_zero_true in Hz. rewrite Hz in Hmaxpos. now apply Qlt_irrefl in Hmaxpos.
      * now rewrite checked_div_some.
    + unfold Qdiv. apply Qmult_inv_r. intros H0. rewrite H0 in Hmaxpos.
      now apply Qlt_irrefl in Hmaxpos.
Qed.

(** The three sample tails: counts 8, 2 and 0. *)
Lemma heat_intensity_between_0_and_1_witness :
  exists cells,
    TailHeatmap.TailHeatmap Samples.tail_frequencies = TailHeatmap.Cells cells /\
    Forall (fun cell => exists r, snd cell = Some r /\ 0 <= r /\ r <= 1) cells.
Proof.
  eexists. split; [reflexivity|].
  eapply (proj1 (heat_intensity_between_0_and_1 Samples.tail_frequencies _ _ eq_refl)).
  Unshelve.
  intros item Hin. cbn in Hin.
  repeat (destruct Hin as [<- | Hin]; [vm_compute; discriminate|]). destruct Hin.
Defined.

Lemma percent_between (count max : Q) :
  0 <= count -> count <= max ->
  exists z, NumberFrequencyList.percent count max = Some z /\ (0 <= z <= 100)%Z.
Proof.
  intros Hc Hcm. unfold NumberFrequencyList.percent.
  destruct (gt max 0) eqn:Hg.
  - apply gt_true in Hg.
    assert (Hz : is_zero max = false).
    { destruct (is_zero max) eqn:E; [|reflexivity].
      apply is_zero_true in E. rewrite E in Hg. now apply Qlt_irrefl in Hg. }
    rewrite checked_div_some by exact Hz. cbn [option_map].
    eexists. split; [reflexivity|].
    destruct (ratio_between_0_and_1 count max Hc Hcm Hg) as [H0 H1].
    unfold Math_round. generalize dependent (count / max). intros ratio H0 H1. split.
    + change 0%Z with (Qfloor 0). apply Qfloor_resp_le. lra.
    + apply Z.le_trans with (m := Qfloor (100 + (1 # 2)));
        [apply Qfloor_resp_le; lra | vm_compute; discriminate].
  - exists 0%Z. split; [reflexivity | lia].
Qed.

Lemma NumberFrequencyList_rows (first : NumberFrequency.t) (rest : list NumberFrequency.t) :
  NumberFrequencyList.NumberFrequencyList (first :: rest) =
  NumberFrequencyList.Rows
    (mapi (fun item index =>
             ((index + 1)%nat, NumberFrequency.number item,
              NumberFrequencyList.percent (NumberFrequency.count item)
                (Math_max_of (NumberFrequency.count first)
                   (map NumberFrequency.count rest)),
              NumberFrequency.count item))
          (first :: rest)).
Proof. reflexivity. Qed.

(** X10: when no count is negative, every bar of the number frequency list
    has a width between 0 and 100 percent; the rows are numbered 1, 2, ...
    and keep the order of the data. *)
Theorem frequency_rows_scaled_and_numbered (data : list NumberFrequency.t)
  (rows : list (nat * string * option Z * Q)) :
  (forall item, In item data -> 0 <= NumberFrequency.count item) ->
  NumberFrequencyList.NumberFrequencyList data = NumberFrequencyList.Rows rows ->
  Forall (fun row => exists z, snd (fst row) = Some z /\ (0 <= z <= 100)%Z) rows /\
  map (fun row => fst (fst (fst row))) rows = seq 1 (List.length data) /\
  map (fun row => snd (fst (fst row))) rows = map NumberFrequency.number data.
Proof.
  intros Hnonneg Hview. destruct data as [|first rest]; [discriminate|].
  rewrite NumberFrequencyList_rows in Hview.
  set (max := Math_max_of _ _) in Hview.
  set (row_of := fun (item : NumberFrequency.t) (index : nat) =>
                   ((index + 1)%nat, NumberFrequency.number item,
                    NumberFrequencyList.percent (NumberFrequency.count item) max,
                    NumberFrequency.count item)) in Hview.
  assert (Hrows : rows = mapi row_of (first :: rest)) by congruence.
  clear Hview. rewrite Hrows. unfold mapi. split; [|split].
  - apply Forall_forall. intros row Hin. apply In_nth_error in Hin.
    destruct Hin as [n Hn]. apply mapi_from_nth_error in Hn.
    destruct Hn as [item [Hitem ->]]. cbn [row_of fst snd].
    apply nth_error_In in Hitem. apply percent_between; [now apply Hnonneg|].
    apply Math_max_of_upper.
    change (In (NumberFrequency.count item) (map NumberFrequency.count (first :: rest))).
    now apply in_map.
  - rewrite mapi_from_map with (h := S); [apply seq_shift|].
    intros x n. cbn. lia.
  - now apply mapi_from_map_elem.
Qed.

(** Two sample numbers: 100 and 67 percent, rows 1 and 2. *)
Lemma frequency_rows_scaled_and_numbered_witness :
  exists rows,
    NumberFrequencyList.NumberFrequencyList Samples.number_frequencies
      = NumberFrequencyList.Rows rows /\
    map (fun row => fst (fst (fst row))) rows = [1; 2]%nat /\
    map (fun row => snd (fst row)) rows = [Some 100%Z; Some 67%Z].
Proof.
  eexists. split; [reflexivity|].
  split; [|vm_compute; reflexivity].
  eapply (proj1 (proj2 (frequency_rows_scaled_and_numbered
                          Samples.number_frequencies _ _ eq_refl))).
  Unshelve.
  intros item Hin. cbn in Hin.
  repeat (destruct Hin as [<- | Hin]; [vm_compute; discriminate|]). destruct Hin.
Defined.

End FrequencyScales.

(* ------------------------------------------------------------------ *)
(** ** URLs and requests of the API client *)
(* ------------------------------------------------------------------ *)

Section ApiClient.
Import Js Client.

Variable API_BASE_URL : string.
Variable String_of_number : number -> string.

Local Abbreviation buildUrl := (buildUrl API_BASE_URL String_of_number).
Local Abbreviation String_of := (String_of String_of_number).

Lemma params_set_fresh (name val : string) (params : list (string * string)) :
  ~ In name (map fst params) ->
  params_set name val params = (params ++ [(name, val)])%list.
Proof.
  induction params as [|[n v] rest IH]; cbn; intros Hfresh; [reflexivity|].
  destruct (String.eqb name n) eqn:E.
  - apply String.eqb_eq in E. subst. tauto.
  - rewrite IH by tauto. reflexivity.
Qed.

Lemma build_params (entries : query) (acc : list (string * string)) :
  NoDup (map fst entries) ->
  (forall k, In k (map fst entries) -> ~ In k (map fst acc)) ->
  fold_left (fun params kv =>
               if skipped (snd kv) then params
               else params_set (fst kv) (String_of (snd kv)) params)
            entries acc
  = (acc ++ map (fun kv => (fst kv, String_of (snd kv)))
                (filter (fun kv => negb (skipped (snd kv))) entries))%list.
Proof.
  revert acc. induction entries as [|[k v] rest IH]; intros acc Hnodup Hfresh; cbn.
  - now rewrite app_nil_r.
  - inversion Hnodup as [|? ? Hk Hrest]; subst.
    destruct (skipped v) eqn:E; cbn.
    + apply IH; [exact Hrest|]. intros k' Hk'. apply Hfresh. now right.
    + rewrite params_set_fresh by (apply Hfresh; now left).
      rewrite IH; [now rewrite <- app_assoc | exact Hrest |].
      intros k' Hk'. rewrite map_app, in_app_iff. cbn.
      intros [H | [H | []]].
      * apply (Hfresh k'); [now right | exact H].
      * subst. contradiction.
Qed.

(** X11: for each path the client requests, the search parameters of the
    URL built for a query are the entries of the query whose value is not
    undefined, null or the empty string, in the order of the query and as
    strings; nothing else is sent. *)
Theorem buildUrl_sends_present_entries (path : string) (q : query) :
  In path endpoints ->
  NoDup (map fst q) ->
  searchParams (buildUrl path (Some q)) =
    map (fun kv => (fst kv, String_of (snd kv)))
        (filter (fun kv => negb (skipped (snd kv))) q) /\
  pathname (buildUrl path (Some q)) = path /\
  searchParams (buildUrl path None) = [].
Proof.
  intros _ Hnodup. split; [|split; reflexivity].
  cbn. rewrite build_params; [reflexivity | exact Hnodup | intros k _ []].
Qed.

(** X12: the results request of the dashboard always carries limit and
    offset 0, and carries the date filter exactly when a date is chosen. *)
Theorem results_url_params (resultsLimit : number) (selectedDate : string) :
  searchParams (App.results_url API_BASE_URL String_of_number resultsLimit selectedDate) =
    ([ ("limit", String_of_number resultsLimit); ("offset", String_of_number (Fin 0)) ]
     ++ (if String.eqb selectedDate "" then [] else [("date", selectedDate)]))%list.
Proof.
  unfold App.results_url, getResults_url, App.buildResultsOptions.
  destruct selectedDate as [|a rest]; reflexivity.
Qed.

Section Requests.

Variable T : Type.
Variable fetch : URL -> FetchInit -> settled (HttpResponse T).

Local Abbreviation request := (request API_BASE_URL String_of_number T fetch).

(** X13: a request is fulfilled only with the parsed body of a response
    that is ok, fetched for the path, method and body of the call; when the
    response is not ok and its text can be read, the request is rejected
    with an Error whose message is that text, or the status text when the
    body is empty. *)
Theorem request_fulfilled_only_when_ok (path : string) (options : RequestOptions) :
  (forall data,
      request path options = Fulfilled data ->
      exists url init response,
        fetch url init = Fulfilled response /\
        pathname url = path /\
        init_method init = opt_method options /\
        init_body init = opt_body options /\
        ok response = true /\ json response = Fulfilled data) /\
  (forall response detail,
      (forall url init, fetch url init = Fulfilled response) ->
      ok response = false ->
      text response = Fulfilled detail ->
      request path options =
        RejectedWith (ErrorObject (if String.eqb detail "" then statusText response
                                   else detail))).
Proof.
  split.
  - intros data H. unfold Client.request in H.
    match type of H with
    | context [fetch ?u ?i] => destruct (fetch u i) as [response | e] eqn:Hfetch;
                               [exists u, i, response | discriminate]
    end.
    destruct (ok response) eqn:Hok.
    + repeat split; try reflexivity; assumption.
    + destruct (text response); discriminate.
  - intros response detail Hfetch Hok Htext. unfold Client.request.
    now rewrite Hfetch, Hok, Htext.
Qed.

End Requests.

End ApiClient.

(** A server that answers 422 with a detail text. *)
Lemma request_fulfilled_only_when_ok_witness :
  let response :=
    {| Client.ok := false; Client.statusText := "Unprocessable Entity";
       Client.text := Client.Fulfilled "capital must be positive";
       Client.json := Client.RejectedWith Client.NonError |} in
  Client.request "http://127.0.0.1:8000" (fun _ => "") nat
    (fun _ _ => Client.Fulfilled response) "/stats/summary"
    {| Client.opt_query := None; Client.opt_headers := None;
       Client.opt_method := None; Client.opt_body := None |}
  = Client.RejectedWith (Client.ErrorObject "capital must be positive").
Proof.
  intros response.
  apply (proj2 (request_fulfilled_only_when_ok "http://127.0.0.1:8000" (fun _ => "") nat
                  (fun _ _ => Client.Fulfilled response) "/stats/summary" _)
           response "capital must be positive");
    reflexivity.
Defined.

(** The query of a prediction request for the Markov model with the
    advanced mode on: top_k 5, no digits, look-back, prize tiers or seed. *)
Lemma buildUrl_sends_present_entries_witness :
  Client.searchParams
    (Client.buildUrl "http://127.0.0.1:8000" Samples.String_of_number "/predictions/heads"
       (Some [ ("algorithm", Client.QStr "markov");
               ("top_k", Client.QNum (Js.Fin 5));
               ("digits", Client.QUndefined);
               ("lookback_draws", Client.QUndefined);
               ("prize_tiers", Client.QUndefined);
               ("advanced", Client.QBool true);
               ("seed", Client.QUndefined) ]))
  = [("algorithm", "markov"); ("top_k", "5"); ("advanced", "true")].
Proof.
  apply (proj1 (buildUrl_sends_present_entries
                  "http://127.0.0.1:8000" Samples.String_of_number "/predictions/heads"
                  [ ("algorithm", Client.QStr "markov");
                    ("top_k", Client.QNum (Js.Fin 5));
                    ("digits", Client.QUndefined);
                    ("lookback_draws", Client.QUndefined);
                    ("prize_tiers", Client.QUndefined);
                    ("advanced", Client.QBool true);
                    ("seed", Client.QUndefined) ]
                  ltac:(cbn; tauto)
                  ltac:(repeat constructor; cbn; intuition discriminate))).
Defined.

(* ------------------------------------------------------------------ *)
(** ** The payload, once more *)
(* ------------------------------------------------------------------ *)

Section PayloadTwice.
Import Js Client.

Lemma lookup_set_same (k : string) (v : value) (o : object) :
  lookup k (set k v o) = Some v.
Proof.
  induction o as [|[k' v'] rest IH]; cbn.
  - now rewrite String.eqb_refl.
  - destruct (String.eqb k k') eqn:E; cbn; [now rewrite String.eqb_refl | now rewrite E].
Qed.

Lemma lookup_set_other (k k' : string) (v : value) (o : object) :
  k' <> k -> lookup k' (set k v o) = lookup k' o.
Proof.
  intros Hne. induction o as [|[k0 v0] rest IH]; cbn.
  - apply String.eqb_neq in Hne. now rewrite Hne.
  - destruct (String.eqb k k0) eqn:E; cbn.
    + apply String.eqb_eq in E. subst k0.
      apply String.eqb_neq in Hne. now rewrite Hne.
    + destruct (String.eqb k' k0); [reflexivity | exact IH].
Qed.

(** Writing a property with the value it has changes nothing. *)
Lemma set_lookup_id (k : string) (v : value) (o : object) :
  lookup k o = Some v -> set k v o = o.
Proof.
  induction o as [|[k' v'] rest IH]; cbn; [discriminate|].
  destruct (String.eqb k k') eqn:E.
  - apply String.eqb_eq in E. subst. now intros [= ->].
  - intros H. now rewrite IH.
Qed.

Lemma nullish_twice (a b : value) : nullish (nullish a b) b = nullish a b.
Proof. destruct a; cbn; try reflexivity; destruct b; reflexivity. Qed.

(** An object that already has the normalised shape is its own payload. *)
Lemma payload_fixed (p : object) (t o i R P : value) :
  lookup "strategy" p = Some (VObj [("type", t); ("options", o); ("plugin_id", i)]) ->
  nullish o (VObj []) = o ->
  nullish i VNull = i ->
  lookup "risk_limits" p = Some R -> nullish R VUndefined = R ->
  lookup "payout_rules" p = Some P -> nullish P VUndefined = P ->
  payload p = Some p.
Proof.
  intros Hst Ho Hi Hrl HR Hpr HP.
  unfold payload, strategy_props, get. rewrite Hst, Hrl, Hpr. cbv beta iota.
  change (lookup "type" [("type", t); ("options", o); ("plugin_id", i)]) with (Some t).
  change (lookup "options" [("type", t); ("options", o); ("plugin_id", i)]) with (Some o).
  change (lookup "plugin_id" [("type", t); ("options", o); ("plugin_id", i)]) with (Some i).
  cbv beta iota. rewrite Ho, Hi, HR, HP.
  rewrite (set_lookup_id "strategy" _ p Hst), (set_lookup_id "risk_limits" R p Hrl).
  now rewrite (set_lookup_id "payout_rules" P p Hpr).
Qed.

(** X14: the normalisation of runLottoBacktest is idempotent: a payload
    given back as a request body is posted unchanged, with the same
    properties in the same order. *)
Theorem payload_idempotent (body p : object) :
  payload body = Some p -> payload p = Some p.
Proof.
  unfold payload. intros H.
  destruct (strategy_props body) as [strategy|] eqn:Hs; [|discriminate].
  injection H as <-.
  eapply payload_fixed.
  - rewrite !lookup_set_other by discriminate. apply lookup_set_same.
  - apply nullish_twice.
  - apply nullish_twice.
  - rewrite lookup_set_other by discriminate. apply lookup_set_same.
  - apply nullish_twice.
  - apply lookup_set_same.
  - apply nullish_twice.
Qed.

(** The body of the default form, normalised once and twice. *)
Lemma payload_idempotent_witness :
  exists p,
    payload (BacktestPro.request_body Samples.default_page) = Some p /\
    payload p = Some p.
Proof.
  eexists. split; [reflexivity|].
  apply (payload_idempotent (BacktestPro.request_body Samples.default_page)).
  reflexivity.
Defined.

End PayloadTwice.

(* ------------------------------------------------------------------ *)
(** ** The strategy form and the run of the Backtest Pro page *)
(* ------------------------------------------------------------------ *)

Section StrategyForm.
Import Js Client BacktestPro.

Lemma options_set_keys (k : string) (v : number) (opts : list (string * number)) :
  In k (map fst opts) -> map fst (options_set k v opts) = map fst opts.
Proof.
  induction opts as [|[k' v'] rest IH]; cbn; [intros []|].
  destruct (String.eqb k k') eqn:E.
  - apply String.eqb_eq in E. now subst.
  - intros [H | H].
    + subst. now rewrite String.eqb_refl in E.
    + cbn. now rewrite IH.
Qed.

Lemma options_set_Forall (P : string * number -> Prop) (k : string) (v : number)
  (opts : list (string * number)) :
  P (k, v) -> Forall P opts -> Forall P (options_set k v opts).
Proof.
  intros Hv. induction 1 as [|[k' v'] rest Hx Hrest IH]; cbn.
  - now repeat constructor.
  - destruct (String.eqb k k'); constructor; assumption.
Qed.

(** The defaults of every strategy of the table name exactly its fields,
    and none of them is NaN. *)
Lemma defaults_cover_fields (t : string) :
  In t (map fst STRATEGY_METADATA) ->
  map fst (defaults (meta_of t)) = map key (fields (meta_of t)) /\
  Forall (fun kv => snd kv <> NaN) (defaults (meta_of t)).
Proof.
  cbn. intros H.
  repeat (destruct H as [<- | H];
          [split; [reflexivity | repeat constructor; discriminate]|]).
  destruct H.
Qed.

Lemma strategy_step_well_formed (st : StrategyFormState) (a : strategy_action) :
  strategy_well_formed st -> strategy_well_formed (strategy_step st a).
Proof.
  intros Hwf. pose proof Hwf as (Htype & Hkeys & Hnan & Hplugin).
  destruct a as [t | k n | text]; cbn [strategy_step].
  - destruct (existsb (String.eqb t) (map fst STRATEGY_METADATA)) eqn:Ht; [|exact Hwf].
    apply existsb_eqb_In in Ht. unfold handleStrategyChange.
    destruct (String.eqb t (type st)); [exact Hwf|].
    destruct (defaults_cover_fields t Ht) as [Hd1 Hd2].
    destruct (String.eqb t "plugin") eqn:Ep; unfold strategy_well_formed;
      cbn [type options plugin_id getDefaultStrategyState];
      (split; [exact Ht | split; [exact Hd1 | split; [exact Hd2|]]]).
    + apply String.eqb_eq in Ep. split; [intros _; exact Ep | discriminate].
    + apply String.eqb_neq in Ep. split; [intros H; now contradiction H | intros H; contradiction].
  - destruct (existsb _ (fields (meta_of (type st)))) eqn:Hk; [|exact Hwf].
    assert (Hin : In k (map fst (options st))).
    { rewrite Hkeys. apply existsb_exists in Hk. destruct Hk as [f [Hf E]].
      apply String.eqb_eq in E. subst. now apply in_map. }
    unfold strategy_well_formed, field_onChange. cbn [type options plugin_id].
    split; [exact Htype | split; [|split; [|exact Hplugin]]].
    + now rewrite options_set_keys.
    + apply options_set_Forall; [|exact Hnan]. cbn. destruct n; cbn; discriminate.
  - destruct (String.eqb (type st) "plugin") eqn:Ep; [|exact Hwf].
    apply String.eqb_eq in Ep. unfold strategy_well_formed, plugin_id_onChange.
    cbn [type options plugin_id].
    split; [exact Htype | split; [exact Hkeys | split; [exact Hnan|]]].
    split; [intros _; exact Ep | discriminate].
Qed.

Lemma strategy_after_invariant (actions : list strategy_action) :
  strategy_well_formed (strategy_after actions).
Proof.
  unfold strategy_after. induction actions as [|a actions IH] using rev_ind.
  - cbn [fold_left]. unfold strategy_well_formed.
    split; [vm_compute; tauto | split; [reflexivity | split]].
    + repeat constructor; discriminate.
    + split; [intros H; now contradiction H | discriminate].
  - rewrite fold_left_app. cbn [fold_left]. now apply strategy_step_well_formed.
Qed.

(** X15: whatever the user does to the strategy part of the form, the
    strategy state stays well formed: its type is one of the strategies
    offered, its options are exactly the parameters of that strategy (in
    the order of the fields and never NaN), and it has a plugin id exactly
    when the plugin strategy is chosen. *)
Theorem strategy_form_well_formed (actions : list strategy_action) :
  strategy_well_formed (strategy_after actions).
Proof. apply strategy_after_invariant. Qed.

(** X16: the strategy that the page posts for such a form is the strategy
    of the form: its type is the chosen type, its options are the options
    of the form, value for value, which are the parameters of the chosen
    strategy (none NaN), and its plugin id is null for every strategy but
    the plugin one, where it is the text held by the plugin id input. *)
Theorem posted_strategy_matches_form (actions : list strategy_action) (s : PageState) :
  strategyState s = strategy_after actions ->
  exists p sp opts,
    payload (request_body s) = Some p /\
    get p "strategy" = VObj sp /\
    keys sp = ["type"; "options"; "plugin_id"] /\
    get sp "type" = VStr (type (strategyState s)) /\
    get sp "options" = VObj opts /\
    opts = map (fun kv => (fst kv, VNum (snd kv))) (options (strategyState s)) /\
    keys opts = map key (fields (meta_of (type (strategyState s)))) /\
    Forall (fun kv => snd kv <> VNum NaN) opts /\
    (type (strategyState s) <> "plugin" ->
       plugin_id (strategyState s) = None /\ get sp "plugin_id" = VNull) /\
    (type (strategyState s) = "plugin" ->
       exists id,
         plugin_id (strategyState s) = Some id /\ get sp "plugin_id" = VStr id).
Proof.
  intros Hs.
  destruct (strategy_after_invariant actions) as (Htype & Hkeys & Hnan & Hplugin).
  rewrite <- Hs in *.
  eexists. eexists. eexists. split; [reflexivity|].
  split; [reflexivity|]. split; [reflexivity|]. split; [reflexivity|].
  split; [reflexivity|]. split; [reflexivity|].
  split; [|split; [|split]].
  - unfold keys. rewrite map_map. cbn [fst]. exact Hkeys.
  - apply Forall_map. eapply Forall_impl; [|exact Hnan]. cbn. intros kv H E.
    apply H. congruence.
  - intros Hne. destruct (plugin_id (strategyState s)) as [id|] eqn:E.
    + exfalso. apply Hne. apply Hplugin. discriminate.
    + split; [reflexivity|]. unfold get. cbn. try rewrite E. reflexivity.
  - intros Hp. apply Hplugin in Hp.
    destruct (plugin_id (strategyState s)) as [id|] eqn:E; [|contradiction].
    exists id. split; [reflexivity|]. unfold get. cbn. try rewrite E. reflexivity.
Qed.

End StrategyForm.

(** The plugin strategy chosen and its id typed in: the posted strategy
    has no options and carries the id. *)
Lemma posted_strategy_matches_form_witness :
  exists p sp,
    Client.payload (BacktestPro.request_body Samples.plugin_page) = Some p /\
    Js.get p "strategy" = Js.VObj sp /\
    Js.get sp "type" = Js.VStr "plugin" /\
    Js.get sp "options" = Js.VObj [] /\
    Js.get sp "plugin_id" = Js.VStr "my_strategy".
Proof.
  destruct (posted_strategy_matches_form
              [ BacktestPro.EditField "amount" (Js.Fin 20000);
                BacktestPro.SelectStrategy "plugin";
                BacktestPro.EditPluginId "my_strategy" ]
              Samples.plugin_page eq_refl)
    as (p & sp & opts & Hp & Hsp & _ & Htype & Hoptions & Hopts & _ & _ & _ & Hid).
  exists p, sp. split; [exact Hp|]. split; [exact Hsp|]. split; [exact Htype|].
  split; [rewrite Hoptions, Hopts; reflexivity|].
  destruct (Hid eq_refl) as (id & Hform & Hposted).
  rewrite Hposted. f_equal. cbn in Hform. congruence.
Defined.

Section RunFailure.
Import Js Client BacktestPro.

Lemma payload_of_request_body (s : PageState) :
  exists p, payload (request_body s) = Some p.
Proof. eexists. reflexivity. Qed.

(** X17: a run that fails, with an Error or with anything else thrown,
    leaves the earlier result and the form as they were, ends with loading
    off, and shows the message of the Error, or the fixed text when what
    was thrown is not an Error. *)
Theorem failed_run_keeps_result
  (request : string -> string -> object -> settled LottoBacktestResponse.t)
  (s : PageState) (e : thrown) :
  dateStart s <> "" ->
  dateEnd s <> "" ->
  runLottoBacktest request (request_body s) = RejectedWith e ->
  let s' := handleRun request s in
  result s' = result s /\
  loading s' = false /\
  error s' = Some match e with
                  | ErrorObject message => message
                  | NonError => "Không thể chạy backtest"
                  end /\
  request_body s' = request_body s.
Proof.
  intros Hstart Hend Hrun s'. unfold s', handleRun.
  rewrite eqb_dates_nonempty by assumption.
  rewrite request_body_form_only, Hrun.
  destruct e; repeat split; reflexivity.
Qed.

Variable API_BASE_URL : string.
Variable String_of_number : number -> string.

(** X18: when the server answers the run with a status that is not ok, the
    page shows the text of the answer as its error (the status text when
    the answer is empty), keeps the earlier result and stops loading: the
    detail the backend gives for a refused configuration reaches the
    user. *)
Theorem backend_refusal_is_shown
  (fetch : URL -> FetchInit -> settled (HttpResponse LottoBacktestResponse.t))
  (s : PageState) (response : HttpResponse LottoBacktestResponse.t) (detail : string) :
  dateStart s <> "" ->
  dateEnd s <> "" ->
  (forall url init, fetch url init = Fulfilled response) ->
  ok response = false ->
  text response = Fulfilled detail ->
  let s' := handleRun (post API_BASE_URL String_of_number fetch) s in
  error s' = Some (if String.eqb detail "" then statusText response else detail) /\
  result s' = result s /\
  loading s' = false.
Proof.
  intros Hstart Hend Hfetch Hok Htext s'.
  assert (Hrun : runLottoBacktest (post API_BASE_URL String_of_number fetch) (request_body s)
                 = RejectedWith (ErrorObject (if String.eqb detail "" then statusText response
                                              else detail))).
  { unfold runLottoBacktest. destruct (payload_of_request_body s) as [p ->].
    unfold post, Client.request. now rewrite Hfetch, Hok, Htext. }
  unfold s', handleRun. rewrite eqb_dates_nonempty by assumption.
  rewrite request_body_form_only, Hrun. repeat split; reflexivity.
Qed.

End RunFailure.

(** The default form against a transport that throws something that is
    not an Error. *)
Lemma failed_run_keeps_result_witness :
  let s' := BacktestPro.handleRun (fun _ _ _ => Client.RejectedWith Client.NonError)
              Samples.default_page in
  BacktestPro.result s' = None /\
  BacktestPro.error s' = Some "Không thể chạy backtest".
Proof.
  destruct (failed_run_keeps_result (fun _ _ _ => Client.RejectedWith Client.NonError)
              Samples.default_page Client.NonError)
    as (Hres & _ & Herr & _).
  - discriminate.
  - discriminate.
  - reflexivity.
  - split; [exact Hres | exact Herr].
Defined.

(** The default form against a server that refuses the configuration. *)
Lemma backend_refusal_is_shown_witness :
  let response :=
    {| Client.ok := false; Client.statusText := "Unprocessable Entity";
       Client.text := Client.Fulfilled "date_start must not be after date_end";
       Client.json := Client.RejectedWith Client.NonError |} in
  let s' :=
    BacktestPro.handleRun
      (Client.post "http://127.0.0.1:8000" (fun _ => "")
         (fun _ _ => Client.Fulfilled response))
      Samples.default_page in
  BacktestPro.error s' = Some "date_start must not be after date_end".
Proof.
  intros response.
  apply (backend_refusal_is_shown "http://127.0.0.1:8000" (fun _ => "")
           (fun _ _ => Client.Fulfilled response) Samples.default_page response
           "date_start must not be after date_end");
    try discriminate; reflexivity.
Defined.

(* ------------------------------------------------------------------ *)
(** ** The Excel export, as a whole *)
(* ------------------------------------------------------------------ *)

Section ExcelExportOutcome.
Import Js Client App.

Variable Date_valueOf : string -> number.
Variable downloadResultsExcel : option string -> option string -> settled string.
Variable formatDateShort : string -> string.

Local Abbreviation handleDownloadExcel :=
  (handleDownloadExcel Date_valueOf downloadResultsExcel formatDateShort).

(** X19: the export always ends with a feedback message; the feedback is a
    success exactly when one file was handed to the browser; the two dates
    of the form are never changed. *)
Theorem export_feedback_matches_download (s : ExportState) :
  let '(s', files) := handleDownloadExcel s in
  (feedbackType s' = success <-> exists filename, files = [filename]) /\
  (feedbackType s' = error <-> files = []) /\
  feedback s' <> None /\
  exportStart s' = exportStart s /\ exportEnd s' = exportEnd s.
Proof.
  unfold App.handleDownloadExcel.
  destruct (negb (String.eqb (exportStart s) "") && negb (String.eqb (exportEnd s) "")
            && (isFinite (Date_valueOf (exportStart s))
                && isFinite (Date_valueOf (exportEnd s))
                && number_gt (Date_valueOf (exportStart s)) (Date_valueOf (exportEnd s)))).
  - cbn. repeat split; try discriminate; try reflexivity.
    intros [f Hf]. discriminate.
  - destruct (downloadResultsExcel _ _) as [filename | [message | ]]; cbn;
      repeat split; try discriminate; try reflexivity; try eauto;
      intros [f Hf]; discriminate.
Qed.

(** X20: given a server that would deliver the file, the export is
    stopped exactly when both dates are filled in, both parse, and the
    start lies after the end; a date that does not parse is passed on to
    the server unchecked. *)
Theorem export_stopped_only_for_reversed_range (s : ExportState) (filename : string) :
  downloadResultsExcel (nonempty (exportStart s)) (nonempty (exportEnd s))
    = Fulfilled filename ->
  let reversed :=
    exportStart s <> "" /\ exportEnd s <> "" /\
    exists a b, Date_valueOf (exportStart s) = Fin a /\
                Date_valueOf (exportEnd s) = Fin b /\ b < a in
  (reversed -> snd (handleDownloadExcel s) = [] /\
               feedbackType (fst (handleDownloadExcel s)) = error) /\
  (~ reversed -> snd (handleDownloadExcel s) = [filename] /\
                 feedbackType (fst (handleDownloadExcel s)) = success).
Proof.
  intros Hdl reversed. split.
  - intros (Hs & He & a & b & Ha & Hb & Hlt).
    rewrite (handleDownloadExcel_rejects_reversed_range Date_valueOf downloadResultsExcel
               formatDateShort s a b Hs He Ha Hb Hlt).
    split; reflexivity.
  - intros Hnot. unfold App.handleDownloadExcel.
    match goal with
    | |- context [if ?c then _ else _] => destruct c eqn:Hc
    end.
    + exfalso. apply Hnot. unfold reversed.
      apply andb_true_iff in Hc. destruct Hc as [Hc Hd].
      apply andb_true_iff in Hc. destruct Hc as [H1 H2].
      apply andb_true_iff in Hd. destruct Hd as [Hd H5].
      apply andb_true_iff in Hd. destruct Hd as [H3 H4].
      apply negb_true_iff, String.eqb_neq in H1, H2.
      split; [exact H1 | split; [exact H2|]].
      destruct (Date_valueOf (exportStart s)) as [ | | | a]; try discriminate.
      destruct (Date_valueOf (exportEnd s)) as [ | | | b]; try discriminate.
      exists a, b. repeat split. cbn in H5. now apply gt_true.
    + rewrite Hdl. split; reflexivity.
Qed.

End ExcelExportOutcome.

(** February to January: nothing is downloaded. *)
Lemma export_stopped_only_for_reversed_range_witness :
  let valueOf := fun text : string =>
    if String.eqb text "2025-02-01" then Js.Fin 1738368000000
    else if String.eqb text "2025-01-01" then Js.Fin 1735689600000
    else Js.NaN in
  let s := {| App.exportStart := "2025-02-01"; App.exportEnd := "2025-01-01";
              App.exporting := false; App.feedback := None;
              App.feedbackType := App.success |} in
  snd (App.handleDownloadExcel valueOf (fun _ _ => Client.Fulfilled "xsmb_export.xlsx")
         (fun d => d) s) = [].
Proof.
  intros valueOf s.
  apply (proj1 (export_stopped_only_for_reversed_range valueOf
                  (fun _ _ => Client.Fulfilled "xsmb_export.xlsx") (fun d => d) s
                  "xsmb_export.xlsx" eq_refl)).
  split; [discriminate | split; [discriminate|]].
  exists 1738368000000, 1735689600000. repeat split.
Defined.

(* ------------------------------------------------------------------ *)
(** ** Where the data of useAsync comes from *)
(* ------------------------------------------------------------------ *)

Section AsyncData.
Import UseAsync.

Variables T E : Type.

(** X21: the data the hook exposes is never made up: it is null, the
    initial data, or the result of one of the executions that resolved;
    and it is the initial data only as long as no execution has settled. *)
Theorem useAsync_data_provenance (options : UseAsyncOptions T) (evs : list (event T E)) :
  let st : AsyncState T E := run options evs in
  data st = None \/
  (data st = initialData _ options /\
   forall ev, In ev evs -> ev = Started) \/
  exists result, In (Resolved result) evs /\ data st = Some result.
Proof.
  unfold run. induction evs as [|ev evs IH] using rev_ind.
  - right. left. split; [reflexivity | intros ev []].
  - rewrite fold_left_app. cbn [fold_left]. destruct ev as [ | result | reason]; cbn.
    + destruct IH as [IH | [[IH Hall] | [r [Hin IH]]]].
      * now left.
      * right. left. split; [exact IH|]. intros ev Hev. apply in_app_iff in Hev.
        destruct Hev as [Hev | [<- | []]]; [now apply Hall | reflexivity].
      * right. right. exists r. split; [apply in_app_iff; now left | exact IH].
    + right. right. exists result. split; [|reflexivity].
      apply in_app_iff. right. now left.
    + now left.
Qed.

End AsyncData.

(* ------------------------------------------------------------------ *)
(** ** The properties of the posted body *)
(* ------------------------------------------------------------------ *)

Section PostedBody.
Import Js Client BacktestPro.

(** X23: the JSON body the page posts for a run always has capital, the
    two dates, model, top_k, digits, strategy, risk_limits and
    payout_rules; a blank region, an unset lookback and an unset seed are
    left out of it rather than sent as null. *)
Theorem posted_body_properties (s : PageState) :
  exists p,
    payload (request_body s) = Some p /\
    keys (json_props p) =
      ([ "capital"; "date_start"; "date_end" ]
       ++ (if String.eqb (region s) "" then [] else ["region"])
       ++ [ "model"; "top_k"; "digits"; "strategy"; "risk_limits"; "payout_rules" ]
       ++ (match lookback s with Some _ => ["lookback_draws"] | None => [] end)
       ++ (match seed s with Some _ => ["seed"] | None => [] end))%list.
Proof.
  eexists. split; [reflexivity|].
  unfold request_body, json_props, optional_number.
  destruct (String.eqb (region s) ""), (lookback s), (seed s); reflexivity.
Qed.

End PostedBody.
